(** * Client-side authentication session and request gateway

    A shallow embedding of [frontend/src/services/api.js] (the axios
    instance with its two interceptors and the [apiService] table) and of
    the [AuthProvider] / [useAuth] pair, followed by the properties of the
    session lifecycle; then the callers: the page frame ([Layout]), the
    registration page and the task board.

    JavaScript values are a small inductive type with the language's
    truthiness, property access and string coercion written out; the
    browser ([localStorage], [window.location]), the React state cells and
    the network are fields of one [World] record that every operation
    threads; an [async] function is a computation in a state-and-exception
    monad, [await] is its bind, and [try]/[catch]/[finally] are
    combinators. *)

From stdpp Require Import base strings gmap list pretty.

Open Scope Z_scope.
Open Scope string_scope.

(** ** JavaScript values *)

(** Numbers are the integer-valued ones only; the code never does
    arithmetic on them. *)
#[warnings="-register-all"] Inductive value : Type :=
| VUndefined
| VNull
| VBool (b : bool)
| VNum (n : Z)
| VStr (s : string)
| VObj (fields : list (string * value)).

(** [ToBoolean]: what [if (v)], [!v] and [v || w] look at. *)
Definition truthy (v : value) : bool :=
  match v with
  | VUndefined | VNull => false
  | VBool b => b
  | VNum n => negb (Z.eqb n 0)
  | VStr "" => false
  | VStr _ => true
  | VObj _ => true
  end.

(** [a || b] *)
Definition js_or (a b : value) : value := if truthy a then a else b.

(** [ToString]: template literals and [localStorage.setItem] coerce with it. *)
Definition to_string (v : value) : string :=
  match v with
  | VUndefined => "undefined"
  | VNull => "null"
  | VBool true => "true"
  | VBool false => "false"
  | VNum n => pretty n
  | VStr s => s
  | VObj _ => "[object Object]"
  end.

Definition nullish (v : value) : bool :=
  match v with VUndefined | VNull => true | _ => false end.

Fixpoint field (k : string) (fields : list (string * value)) : value :=
  match fields with
  | [] => VUndefined
  | (k', v) :: rest => if String.eqb k k' then v else field k rest
  end.

(** [v.k] on a value that is not nullish: own fields of an object, and
    [undefined] on a primitive (none of the names read here is a built-in
    of String, Number or Boolean). *)
Definition prop (v : value) (k : string) : value :=
  match v with
  | VObj fields => field k fields
  | _ => VUndefined
  end.

(** [v?.k] *)
Definition opt_prop (v : value) (k : string) : value :=
  if nullish v then VUndefined else prop v k.

(** ** HTTP messages and thrown values *)

Inductive Method := GET | POST | PUT | PATCH | DELETE.

(** An axios request config. *)
Record Config := {
  cfg_method : Method;
  cfg_baseURL : string;
  cfg_url : string;
  cfg_headers : gmap string string;
  cfg_params : value;
  cfg_data : value
}.

Record Response := { status : Z; data : value }.

(** What comes back for one request: a response with some status, or
    nothing at all (the network failed). *)
Inductive Reply := Replied (r : Response) | NoResponse.

(** The values the code can find in a [catch]: an axios error, which has a
    [response] only when the server answered; a [TypeError] from reading a
    property of [null] or [undefined]; a plain [Error]. *)
Inductive exn :=
| AxiosError (response : option Response)
| TypeError (message : string)
| Error (message : string).

(** [error.response?.status] *)
Definition error_response_status (e : exn) : option Z :=
  match e with
  | AxiosError (Some r) => Some (status r)
  | _ => None
  end.

(** [error.response?.data?.detail] *)
Definition error_response_data_detail (e : exn) : value :=
  match e with
  | AxiosError (Some r) => opt_prop (data r) "detail"
  | _ => VUndefined
  end.

(** ** The world *)

(** Effects that leave a mark, newest first. *)
Inductive Event :=
| ESetItem (key val : string)
| ERemoveItem (key : string)
| ENavigate (href : string)
| ERequest (cfg : Config)
| EResponse (reply : Reply)
| EConsoleError (label : string) (e : exn).

(** The four [useState] cells of [AuthProvider]. *)
Record Session := {
  user : value;
  isAuthenticated : bool;
  loading : bool;
  error : value
}.

Record World := {
  localStorage : gmap string string;
  location_href : string;
  session : Session;
  VITE_API_URL : value;          (* import.meta.env.VITE_API_URL *)
  backend : nat -> Reply;        (* the reply to the n-th request sent *)
  trace : list Event
}.

Fixpoint sent (t : list Event) : nat :=
  match t with
  | [] => O
  | ERequest _ :: t' => S (sent t')
  | _ :: t' => sent t'
  end.

(** ** Computations: state and exceptions *)

Inductive Outcome (A : Type) : Type :=
| Return (a : A)
| Throw (e : exn).
Arguments Return {A} a.
Arguments Throw {A} e.

Definition M (A : Type) : Type := World -> Outcome A * World.

Definition ret {A} (a : A) : M A := fun w => (Return a, w).
Definition throw {A} (e : exn) : M A := fun w => (Throw e, w).

Definition bind {A B} (c : M A) (k : A -> M B) : M B :=
  fun w =>
    match c w with
    | (Return a, w') => k a w'
    | (Throw e, w') => (Throw e, w')
    end.

Notation "'let!' x ':=' c 'in' k" := (bind c (fun x => k))
  (at level 10, x name, c at level 100, k at level 200).
Notation "c '>>' k" := (bind c (fun _ => k))
  (at level 90, right associativity).

(** [try { body } catch (e) { handler e }] *)
Definition try_catch {A} (body : M A) (handler : exn -> M A) : M A :=
  fun w =>
    match body w with
    | (Return a, w') => (Return a, w')
    | (Throw e, w') => handler e w'
    end.

(** [try { body } finally { fin }]: [fin] always runs; when it completes
    normally the outcome of [body] stands (no [finally] block here has a
    [return]), when it throws, its exception replaces it. *)
Definition try_finally {A} (body : M A) (fin : M unit) : M A :=
  fun w =>
    match body w with
    | (o, w') =>
        match fin w' with
        | (Return _, w'') => (o, w'')
        | (Throw e, w'') => (Throw e, w'')
        end
    end.

(** [try { body } catch (e) { handler e } finally { fin }] *)
Definition try_catch_finally {A} (body : M A) (handler : exn -> M A) (fin : M unit) : M A :=
  try_finally (try_catch body handler) fin.

Definition log (e : Event) : M unit :=
  fun w => (Return tt,
            {| localStorage := localStorage w; location_href := location_href w;
               session := session w; VITE_API_URL := VITE_API_URL w;
               backend := backend w; trace := e :: trace w |}).

(** *** The browser *)

Definition with_storage (f : gmap string string -> gmap string string) (w : World) : World :=
  {| localStorage := f (localStorage w); location_href := location_href w;
     session := session w; VITE_API_URL := VITE_API_URL w;
     backend := backend w; trace := trace w |}.

Definition with_session (f : Session -> Session) (w : World) : World :=
  {| localStorage := localStorage w; location_href := location_href w;
     session := f (session w); VITE_API_URL := VITE_API_URL w;
     backend := backend w; trace := trace w |}.

(** [localStorage.getItem(key)]: the stored string, or [null]. *)
Definition getItem (key : string) : M value :=
  fun w =>
    (Return (match localStorage w !! key with Some s => VStr s | None => VNull end), w).

(** [localStorage.setItem(key, v)] stores [String(v)]. *)
Definition setItem (key : string) (v : value) : M unit :=
  fun w => log (ESetItem key (to_string v)) (with_storage (insert key (to_string v)) w).

(** [localStorage.removeItem(key)] *)
Definition removeItem (key : string) : M unit :=
  fun w => log (ERemoveItem key) (with_storage (delete key) w).

(** [window.location.href = href] *)
Definition set_location_href (href : string) : M unit :=
  fun w =>
    log (ENavigate href)
      {| localStorage := localStorage w; location_href := href;
         session := session w; VITE_API_URL := VITE_API_URL w;
         backend := backend w; trace := trace w |}.

(** [console.error(label, e)] *)
Definition console_error (label : string) (e : exn) : M unit :=
  log (EConsoleError label e).

(** ** The request gateway: [services/api.js] *)

(** [import.meta.env.VITE_API_URL || 'http://localhost:8000'] *)
Definition API_BASE_URL (env : value) : value :=
  js_or env (VStr "http://localhost:8000").

(** [config.headers.Authorization = v] *)
Definition set_Authorization (v : string) (config : Config) : Config :=
  {| cfg_method := cfg_method config; cfg_baseURL := cfg_baseURL config;
     cfg_url := cfg_url config;
     cfg_headers := <["Authorization" := v]> (cfg_headers config);
     cfg_params := cfg_params config; cfg_data := cfg_data config |}.

Module api.

(** The config [axios.create] gives every request of the instance. *)
Definition defaults (env : value) (method : Method) (url : string)
    (data params : value) : Config :=
  {| cfg_method := method; cfg_baseURL := to_string (API_BASE_URL env);
     cfg_url := url;
     cfg_headers := {["Content-Type" := "application/json"]};
     cfg_params := params; cfg_data := data |}.

Module interceptors.

(** Request interceptor to add auth token. *)
Definition request (config : Config) : M Config :=
  let! token := getItem "token" in
  if truthy token
  then ret (set_Authorization ("Bearer " ++ to_string token) config)
  else ret config.

Definition request_rejected {A} (error : exn) : M A := throw error.

(** Response interceptor, success side: [(response) => response]. *)
Definition response (r : Response) : M Response := ret r.

(** Response interceptor for error handling. *)
Definition response_rejected {A} (error : exn) : M A :=
  (if bool_decide (error_response_status error = Some 401)
   then removeItem "token" >> set_location_href "/login"
   else ret tt) >>
  throw error.

End interceptors.

(** axios' default [validateStatus]. *)
Definition validateStatus (status : Z) : bool :=
  ((200 <=? status) && (status <? 300))%Z.

(** First half of a request: the request interceptor runs and the
    request goes on the wire. *)
Definition dispatch (config : Config) : M Config :=
  let! config' := interceptors.request config in
  log (ERequest config') >> ret config'.

(** Second half: the reply arrives; a response whose status validates
    fulfils the promise through the success side of the response
    interceptor, anything else rejects it through the error side. *)
Definition settle (reply : Reply) : M Response :=
  log (EResponse reply) >>
  match reply with
  | Replied r =>
      if validateStatus (status r)
      then interceptors.response r
      else interceptors.response_rejected (AxiosError (Some r))
  | NoResponse => interceptors.response_rejected (AxiosError None)
  end.

(** The reply the backend gives to the next request. *)
Definition exchange : M Reply :=
  fun w => (Return (backend w (sent (trace w))), w).

(** [await api.request(config)] *)
Definition request (config : Config) : M Response :=
  let! reply := exchange in
  dispatch config >> settle reply.

Definition call (method : Method) (url : string) (data params : value) : M Response :=
  fun w => request (defaults (VITE_API_URL w) method url data params) w.

Definition get (url : string) (params : value) := call GET url VUndefined params.
Definition post (url : string) (data params : value) := call POST url data params.
Definition put (url : string) (data : value) := call PUT url data VUndefined.
Definition patch (url : string) (data : value) := call PATCH url data VUndefined.
Definition delete (url : string) := call DELETE url VUndefined VUndefined.

End api.

Module apiService.

Inductive Endpoint :=
| health
| login (credentials : value)
| register (userData : value)
| logout
| getCurrentUser
| getAllUsers (params : value)
| getProjects (params : value)
| getProject (id : value)
| createProject (body : value)
| updateProject (id body : value)
| deleteProject (id : value)
| createDemoProject
| getTasks (params : value)
| getTask (id : value)
| createTask (body : value)
| updateTask (id body : value)
| updateTaskProgress (id progress : value)
| deleteTask (id : value)
| getForecasts (params : value)
| getLatestForecasts
| analyzeForecast (projectId : value)
| getSimulations (params : value)
| runSimulation (body : value)
| getAutomationLogs (params : value)
| getAutomationLog (id : value).

Definition call (e : Endpoint) : M Response :=
  match e with
  | health => api.get "/health" VUndefined
  | login credentials => api.post "/api/auth/login" credentials VUndefined
  | register userData => api.post "/api/auth/register" userData VUndefined
  | logout => api.post "/api/auth/logout" VUndefined VUndefined
  | getCurrentUser => api.get "/api/auth/me" VUndefined
  | getAllUsers params => api.get "/api/auth/users" params
  | getProjects params => api.get "/api/projects" params
  | getProject id => api.get ("/api/projects/" ++ to_string id) VUndefined
  | createProject body => api.post "/api/projects" body VUndefined
  | updateProject id body => api.put ("/api/projects/" ++ to_string id) body
  | deleteProject id => api.delete ("/api/projects/" ++ to_string id)
  | createDemoProject => api.post "/api/projects/demo" VUndefined VUndefined
  | getTasks params => api.get "/api/tasks" params
  | getTask id => api.get ("/api/tasks/" ++ to_string id) VUndefined
  | createTask body => api.post "/api/tasks" body VUndefined
  | updateTask id body => api.put ("/api/tasks/" ++ to_string id) body
  | updateTaskProgress id progress =>
      api.patch ("/api/tasks/" ++ to_string id ++ "/progress")
        (VObj [("progress", progress)])
  | deleteTask id => api.delete ("/api/tasks/" ++ to_string id)
  | getForecasts params => api.get "/api/forecasts" params
  | getLatestForecasts => api.get "/api/forecasts/latest" VUndefined
  | analyzeForecast projectId =>
      api.post "/api/forecasts/analyze" VNull
        (if truthy projectId then VObj [("project_id", projectId)] else VObj [])
  | getSimulations params => api.get "/api/simulations" params
  | runSimulation body => api.post "/api/simulations/run" body VUndefined
  | getAutomationLogs params => api.get "/api/automation-logs" params
  | getAutomationLog id => api.get ("/api/automation-logs/" ++ to_string id) VUndefined
  end.

End apiService.

(** ** The session store: [AuthProvider] and [useAuth] *)

(** [v.k] inside an [async] body: reading a property of [null] or
    [undefined] throws; destructuring [const { k } = v] does the same. *)
Definition member (v : value) (k : string) : M value :=
  if nullish v
  then throw (TypeError ("Cannot read properties of " ++ to_string v))
  else ret (prop v k).

Module AuthProvider.

(** The initial values handed to [useState]. *)
Definition initial : Session :=
  {| user := VNull; isAuthenticated := false; loading := true; error := VNull |}.

Definition setUser (v : value) : M unit :=
  fun w => (Return tt,
            with_session (fun s => {| user := v; isAuthenticated := isAuthenticated s;
                                      loading := loading s; error := error s |}) w).

Definition setIsAuthenticated (b : bool) : M unit :=
  fun w => (Return tt,
            with_session (fun s => {| user := user s; isAuthenticated := b;
                                      loading := loading s; error := error s |}) w).

Definition setLoading (b : bool) : M unit :=
  fun w => (Return tt,
            with_session (fun s => {| user := user s; isAuthenticated := isAuthenticated s;
                                      loading := b; error := error s |}) w).

Definition setError (v : value) : M unit :=
  fun w => (Return tt,
            with_session (fun s => {| user := user s; isAuthenticated := isAuthenticated s;
                                      loading := loading s; error := v |}) w).

Definition checkAuth : M value :=
  let! token := getItem "token" in
  if negb (truthy token)
  then setLoading false >> ret VUndefined
  else
    try_catch_finally
      (let! response := apiService.call apiService.getCurrentUser in
       setUser (data response) >>
       setIsAuthenticated true)
      (fun _ =>
         (* Token invalid or expired *)
         removeItem "token" >>
         setUser VNull >>
         setIsAuthenticated false)
      (setLoading false) >>
    ret VUndefined.

Definition login_failed : string := "Đăng nhập thất bại. Vui lòng thử lại.".

Definition login (username password : value) : M value :=
  try_catch
    (setError VNull >>
     let! response :=
       apiService.call
         (apiService.login (VObj [("username", username); ("password", password)])) in
     let! access_token := member (data response) "access_token" in
     (* Save token to localStorage *)
     setItem "token" access_token >>
     (* Get user info *)
     let! userResponse := apiService.call apiService.getCurrentUser in
     setUser (data userResponse) >>
     setIsAuthenticated true >>
     ret (VObj [("success", VBool true)]))
    (fun error =>
       let errorMessage := js_or (error_response_data_detail error) (VStr login_failed) in
       setError errorMessage >>
       ret (VObj [("success", VBool false); ("error", errorMessage)])).

Definition register_failed : string := "Đăng ký thất bại. Vui lòng thử lại.".
Definition registered_but_login_failed : string :=
  "Đăng ký thành công nhưng đăng nhập thất bại. Vui lòng đăng nhập thủ công.".

Definition register (userData : value) : M value :=
  try_catch
    (setError VNull >>
     let! response := apiService.call (apiService.register userData) in
     (* Auto login after successful registration *)
     let! username := member userData "username" in
     let! password := member userData "password" in
     let! loginResult := login username password in
     let! success := member loginResult "success" in
     if truthy success
     then ret (VObj [("success", VBool true); ("user", data response)])
     else ret (VObj [("success", VBool false);
                     ("error", VStr registered_but_login_failed)]))
    (fun error =>
       let errorMessage := js_or (error_response_data_detail error) (VStr register_failed) in
       setError errorMessage >>
       ret (VObj [("success", VBool false); ("error", errorMessage)])).

Definition logout : M value :=
  try_catch_finally
    (let! _ := apiService.call apiService.logout in ret tt)
    (fun error =>
       (* Ignore logout API errors *)
       console_error "Logout error:" error)
    ((* Always clear local state and token *)
     removeItem "token" >>
     setUser VNull >>
     setIsAuthenticated false >>
     setError VNull) >>
  ret VUndefined.

(** The object handed to [AuthContext.Provider]. *)
Record Value := {
  ctx_user : value;
  ctx_isAuthenticated : bool;
  ctx_loading : bool;
  ctx_error : value;
  ctx_login : value -> value -> M value;
  ctx_register : value -> M value;
  ctx_logout : M value;
  ctx_checkAuth : M value
}.

Definition value (s : Session) : Value :=
  {| ctx_user := user s; ctx_isAuthenticated := isAuthenticated s;
     ctx_loading := loading s; ctx_error := error s;
     ctx_login := login; ctx_register := register;
     ctx_logout := logout; ctx_checkAuth := checkAuth |}.

End AuthProvider.

(** [createContext(null)]: the value [useContext] yields when no provider
    is above the caller. *)
Definition AuthContext : option AuthProvider.Value := None.

(** [useContext(context)]: the value of the nearest provider, or the
    default of the context. *)
Definition useContext {A} (default : option A) (provider : option A) : option A :=
  match provider with
  | Some v => Some v
  | None => default
  end.

Definition useAuth (provider : option AuthProvider.Value) : Outcome AuthProvider.Value :=
  let context := useContext AuthContext provider in
  match context with
  | None => Throw (Error "useAuth must be used within an AuthProvider")
  | Some context => Return context
  end.

(** ** Several requests in flight *)

(** The code awaiting a request; what it does with a rejection is its own
    business, here it swallows it. *)
Definition awaited (reply : Reply) : M unit :=
  try_catch (let! _ := api.settle reply in ret tt) (fun _ => ret tt).

Fixpoint dispatch_all (configs : list Config) : M unit :=
  match configs with
  | [] => ret tt
  | c :: cs => (let! _ := api.dispatch c in ret tt) >> dispatch_all cs
  end.

Fixpoint settle_all (replies : list Reply) : M unit :=
  match replies with
  | [] => ret tt
  | r :: rs => awaited r >> settle_all rs
  end.

(** Requests sent one after the other before any reply arrives, then the
    replies arriving in some order. *)
Definition in_flight (configs : list Config) (replies : list Reply) : M unit :=
  dispatch_all configs >> settle_all replies.

(** ** Reading a trace *)

Fixpoint removals (key : string) (t : list Event) : nat :=
  match t with
  | [] => O
  | ERemoveItem k :: t' => (if String.eqb k key then 1 else 0) + removals key t'
  | _ :: t' => removals key t'
  end%nat.

Fixpoint navigations (href : string) (t : list Event) : nat :=
  match t with
  | [] => O
  | ENavigate h :: t' => (if String.eqb h href then 1 else 0) + navigations href t'
  | _ :: t' => navigations href t'
  end%nat.

(** The events a run from [w] to [w'] added, newest first. *)
Definition events_since (w w' : World) : list Event :=
  firstn (length (trace w') - length (trace w)) (trace w').

Definition is_unauthorized (reply : Reply) : bool :=
  match reply with
  | Replied r => bool_decide (status r = 401)
  | NoResponse => false
  end.

Fixpoint requests (t : list Event) : list Config :=
  match t with
  | [] => []
  | ERequest c :: t' => c :: requests t'
  | _ :: t' => requests t'
  end.

Definition failed (reply : Reply) : bool :=
  match reply with
  | Replied r => negb (api.validateStatus (status r))
  | NoResponse => true
  end.

(** How many of the replies are a 401. *)
Fixpoint unauthorized (replies : list Reply) : nat :=
  match replies with
  | [] => O
  | r :: rs => ((if is_unauthorized r then 1 else 0) + unauthorized rs)%nat
  end.

(** The [Authorization] header a request should leave with, given the
    storage at the time it is sent. *)
Definition expected_Authorization (ls : gmap string string) : option string :=
  match ls !! "token" with
  | Some t => if bool_decide (t = "") then None else Some ("Bearer " ++ t)
  | None => None
  end.

(** [c] never raises: from every world it completes with a value. *)
Definition returns {A} (c : M A) : Prop := forall w, exists a, fst (c w) = Return a.

(** Whenever [c] completes with a value, the value satisfies [Q]. *)
Definition yields {A} (c : M A) (Q : A -> Prop) : Prop :=
  forall w a, fst (c w) = Return a -> Q a.

(** An object with a boolean [success] field. *)
Definition result_shaped (v : value) : Prop :=
  exists b, prop v "success" = VBool b.

(** ** What one request does, in closed form *)

(** The config that goes on the wire for [config] when the storage is [ls]. *)
Definition credentialed (ls : gmap string string) (config : Config) : Config :=
  match ls !! "token" with
  | Some t => if truthy (VStr t)
              then set_Authorization ("Bearer " ++ t) config
              else config
  | None => config
  end.

Definition logged (es : list Event) (w : World) : World :=
  {| localStorage := localStorage w; location_href := location_href w;
     session := session w; VITE_API_URL := VITE_API_URL w;
     backend := backend w; trace := es ++ trace w |}.

(** The world after the error side of the response interceptor has seen a 401. *)
Definition expelled (w : World) : World :=
  {| localStorage := delete "token" (localStorage w); location_href := "/login";
     session := session w; VITE_API_URL := VITE_API_URL w;
     backend := backend w;
     trace := ENavigate "/login" :: ERemoveItem "token" :: trace w |}.

Definition settled (reply : Reply) (w : World) : Outcome Response * World :=
  let w1 := logged [EResponse reply] w in
  match reply with
  | Replied r =>
      if api.validateStatus (status r) then (Return r, w1)
      else (Throw (AxiosError (Some r)),
            if bool_decide (status r = 401) then expelled w1 else w1)
  | NoResponse => (Throw (AxiosError None), w1)
  end.

Definition requested (config : Config) (w : World) : Outcome Response * World :=
  settled (backend w (sent (trace w)))
          (logged [ERequest (credentialed (localStorage w) config)] w).

(** ** Sample worlds *)

(** A backend that answers from a list, in order, and then goes silent. *)
Definition script (replies : list Reply) : nat -> Reply :=
  fun n => nth n replies NoResponse.

Definition answer (code : Z) (d : value) : Reply :=
  Replied {| status := code; data := d |}.

(** A freshly loaded page with [ls] in storage. *)
Definition page (ls : gmap string string) (replies : list Reply) : World :=
  {| localStorage := ls; location_href := "/"; session := AuthProvider.initial;
     VITE_API_URL := VUndefined; backend := script replies; trace := [] |}.

Definition alice : value :=
  VObj [("id", VNum 1); ("username", VStr "alice"); ("full_name", VStr "Alice");
        ("email", VStr "alice@example.org"); ("role", VStr "user")].

Definition alice_form : value :=
  VObj [("username", VStr "alice"); ("password", VStr "secret");
        ("email", VStr "alice@example.org"); ("full_name", VStr "Alice")].

Definition bearer (t : string) : value :=
  VObj [("access_token", VStr t); ("token_type", VStr "bearer")].

Definition detail (msg : string) : value := VObj [("detail", VStr msg)].

(** A page on which [u] is signed in with token [t]. *)
Definition signed_in (t : string) (u : value) (replies : list Reply) : World :=
  {| localStorage := {["token" := t]}; location_href := "/";
     session := {| user := u; isAuthenticated := true; loading := false; error := VNull |};
     VITE_API_URL := VUndefined; backend := script replies; trace := [] |}.

(** ** Vocabulary for the closed forms of the session operations *)

(** The message [login] reports when the request that failed was answered
    with [reply]: [error.response?.data?.detail || fallback]. *)
Definition login_message (reply : Reply) : value :=
  match reply with
  | Replied r => js_or (opt_prop (data r) "detail") (VStr AuthProvider.login_failed)
  | NoResponse => VStr AuthProvider.login_failed
  end.

(** The same for [register]. *)
Definition register_message (reply : Reply) : value :=
  match reply with
  | Replied r => js_or (opt_prop (data r) "detail") (VStr AuthProvider.register_failed)
  | NoResponse => VStr AuthProvider.register_failed
  end.

(** [{ success: false, error: message }] *)
Definition failure (message : value) : value :=
  VObj [("success", VBool false); ("error", message)].

(** The session after [setError(message)] and nothing else. *)
Definition with_error (message : value) (s : Session) : Session :=
  {| user := user s; isAuthenticated := isAuthenticated s;
     loading := loading s; error := message |}.

(** What the gateway hands its caller for a reply: the response when its
    status validates, a rejection carrying the response (or no response)
    otherwise. *)
Definition delivered (reply : Reply) : Outcome Response :=
  match reply with
  | Replied r => if api.validateStatus (status r) then Return r
                 else Throw (AxiosError (Some r))
  | NoResponse => Throw (AxiosError None)
  end.

(** [c] keeps the relation [R] between the world it starts in and the world
    it ends in, whether it returns or throws. *)
Definition keeps {A} (R : World -> World -> Prop) (c : M A) : Prop :=
  forall w, R w (snd (c w)).

(** Every storage key other than ["token"] holds what it held. *)
Definition same_elsewhere (w w' : World) : Prop :=
  forall k, k <> "token" -> localStorage w' !! k = localStorage w !! k.

(** ** The page frame: [components/Layout.jsx] *)

(** A character of a string stands for one UTF-16 code unit; the strings
    covered are those whose code units are below 256. *)

(** U+0020 *)
Definition space : Ascii.ascii :=
  Ascii.Ascii false false false false false true false false.

(** [s.split(sep)] for a one-character separator: the pieces between the
    separators, in order; never the empty list. *)
Fixpoint split_on (sep : Ascii.ascii) (s : string) : list string :=
  match s with
  | "" => [""]
  | String c s' =>
      if Ascii.eqb c sep then "" :: split_on sep s'
      else match split_on sep s' with
           | piece :: pieces => String c piece :: pieces
           | [] => [String c ""]
           end
  end.

(** [s[0]]: the first code unit as a one-character string, [undefined] on
    the empty string. *)
Definition first_char (s : string) : value :=
  match s with
  | "" => VUndefined
  | String c _ => VStr (String c "")
  end.

Module Layout.
Section Component.
(** [String.prototype.toUpperCase], left to the engine, and the function
    [useNavigate()] returns, left to the router. *)
Variable toUpperCase : string -> string.
Variable navigate : string -> M unit.

Definition handleLogout (auth : AuthProvider.Value) : M value :=
  let! _ := AuthProvider.ctx_logout auth in
  navigate "/login" >>
  ret VUndefined.

(** [(a + b).toUpperCase()] for [a], [b] each a string or [undefined]:
    with a string on either side [+] concatenates, the other side coerced
    to text; [undefined + undefined] is [NaN], which has no
    [toUpperCase]. *)
Definition upper_of_sum (a b : value) : Outcome string :=
  match a, b with
  | VUndefined, VUndefined => Throw (TypeError "toUpperCase is not a function")
  | _, _ => Return (toUpperCase (to_string a ++ to_string b))
  end.

(** Get user initials for avatar. *)
Definition getUserInitials (user : value) : Outcome string :=
  let full_name := opt_prop user "full_name" in
  if negb (truthy full_name) then Return "U"
  else
    match full_name with
    | VStr s =>
        let names := split_on space s in
        if (2 <=? length names)%nat
        then upper_of_sum (first_char (nth 0 names "")) (first_char (List.last names ""))
        else match first_char s with
             | VStr c => Return (toUpperCase c)
             | _ => Throw (TypeError "Cannot read properties of undefined")
             end
    | _ => Throw (TypeError "user.full_name.split is not a function")
    end.

End Component.
End Layout.

(** [words.join(" ")] *)
Fixpoint join_spaces (words : list string) : string :=
  match words with
  | [] => ""
  | [w] => w
  | w :: ws => w ++ " " ++ join_spaces ws
  end.

(** No code unit of [s] is a space. *)
Fixpoint space_free (s : string) : bool :=
  match s with
  | "" => true
  | String c s' => negb (Ascii.eqb c space) && space_free s'
  end.

Definition starts_with_space (s : string) : bool :=
  match s with
  | "" => false
  | String c _ => Ascii.eqb c space
  end.

Fixpoint ends_with_space (s : string) : bool :=
  match s with
  | "" => false
  | String c "" => Ascii.eqb c space
  | String _ s' => ends_with_space s'
  end.

(** A stand-in for [toUpperCase] on samples: the ASCII letters. *)
Definition upper_char (c : Ascii.ascii) : Ascii.ascii :=
  let n := Ascii.N_of_ascii c in
  if ((97 <=? n) && (n <=? 122))%N then Ascii.ascii_of_N (n - 32) else c.

Fixpoint ascii_upper (s : string) : string :=
  match s with
  | "" => ""
  | String c s' => String (upper_char c) (ascii_upper s')
  end.

(** ** Components with state of their own *)

(** A component's handlers see the component's own state cells next to the
    world. Same shape as [M], with the pair as state. *)
Definition C (S A : Type) : Type := S * World -> Outcome A * (S * World).

Definition cret {S A} (a : A) : C S A := fun sw => (Return a, sw).

Definition cbind {S A B} (c : C S A) (k : A -> C S B) : C S B :=
  fun sw =>
    match c sw with
    | (Return a, sw') => k a sw'
    | (Throw e, sw') => (Throw e, sw')
    end.

Notation "'let*' x ':=' c 'in' k" := (cbind c (fun x => k))
  (at level 10, x name, c at level 100, k at level 200).
Notation "c '>>>' k" := (cbind c (fun _ => k))
  (at level 90, right associativity).

Definition ctry_catch_finally {S A} (body : C S A) (handler : exn -> C S A)
    (fin : C S unit) : C S A :=
  fun sw =>
    match (match body sw with
           | (Return a, sw') => (Return a, sw')
           | (Throw e, sw') => handler e sw'
           end) with
    | (o, sw') =>
        match fin sw' with
        | (Return _, sw'') => (o, sw'')
        | (Throw e, sw'') => (Throw e, sw'')
        end
    end.

(** A session operation called from a component. *)
Definition lift {S A} (c : M A) : C S A :=
  fun sw => match c (snd sw) with (o, w') => (o, (fst sw, w')) end.

(** Reading a state cell, and a [useState] setter. *)
Definition gets {S B} (f : S -> B) : C S B := fun sw => (Return (f (fst sw)), sw).
Definition modify {S} (f : S -> S) : C S unit := fun sw => (Return tt, (f (fst sw), snd sw)).

(** [v.k] in a handler. *)
Definition cmember {S} (v : value) (k : string) : C S value := lift (member v k).

(** ** Regular expressions of the shape the forms use *)

(** One item of a pattern: a literal character, or [[^...]+], one or more
    characters outside a set. *)
Inductive item :=
| Lit (c : Ascii.ascii)
| PlusNot (set : Ascii.ascii -> bool).

(** [k] holds of what is left after one or more characters outside [set]. *)
Fixpoint plus_not (set : Ascii.ascii -> bool) (k : string -> bool) (s : string) : bool :=
  match s with
  | "" => false
  | String c s' => negb (set c) && (plus_not set k s' || k s')
  end.

(** [/^pattern$/.test(s)] *)
Fixpoint test (pattern : list item) (s : string) : bool :=
  match pattern with
  | [] => match s with "" => true | _ => false end
  | Lit c :: rest =>
      match s with
      | String c' s' => Ascii.eqb c' c && test rest s'
      | "" => false
      end
  | PlusNot set :: rest => plus_not set (test rest) s
  end.

Definition code (c : Ascii.ascii) : N := Ascii.N_of_ascii c.

(** [\s], among the code units below 256: tab, line feed, vertical tab,
    form feed, carriage return, space, no-break space. *)
Definition whitespace (c : Ascii.ascii) : bool :=
  ((9 <=? code c) && (code c <=? 13) || (code c =? 32) || (code c =? 160))%N.

Definition at_sign : Ascii.ascii := Ascii.ascii_of_N 64.
Definition full_stop : Ascii.ascii := Ascii.ascii_of_N 46.

(** [\s@] *)
Definition space_or_at (c : Ascii.ascii) : bool := whitespace c || Ascii.eqb c at_sign.



(** ** The registration page *)

Module Register.

Record FormData := {
  email : string;
  username : string;
  password : string;
  confirmPassword : string;
  full_name : string
}.

(** The [useState] cells of the page, and the timers it has set:
    a delay in milliseconds and the route the callback navigates to. *)
Record State := {
  formData : FormData;
  isLoading : bool;
  error : value;
  success : bool;
  timers : list (Z * string)
}.

Definition initial : State :=
  {| formData := {| email := ""; username := ""; password := "";
                    confirmPassword := ""; full_name := "" |};
     isLoading := false; error := VStr ""; success := false; timers := [] |}.

Definition setIsLoading (b : bool) : C State unit :=
  modify (fun st => {| formData := formData st; isLoading := b; error := error st;
                       success := success st; timers := timers st |}).

Definition setError (v : value) : C State unit :=
  modify (fun st => {| formData := formData st; isLoading := isLoading st; error := v;
                       success := success st; timers := timers st |}).

Definition setSuccess (b : bool) : C State unit :=
  modify (fun st => {| formData := formData st; isLoading := isLoading st; error := error st;
                       success := b; timers := timers st |}).

(** [setTimeout(() => navigate(route), delay)] *)
Definition setTimeout_navigate (route : string) (delay : Z) : C State unit :=
  modify (fun st => {| formData := formData st; isLoading := isLoading st; error := error st;
                       success := success st; timers := (delay, route) :: timers st |}).

(** [/^[^\s@]+@[^\s@]+\.[^\s@]+$/] *)
Definition emailRegex : list item :=
  [PlusNot space_or_at; Lit at_sign; PlusNot space_or_at; Lit full_stop; PlusNot space_or_at].

Definition fill_in_everything : string := "Vui lòng nhập đầy đủ thông tin".
Definition invalid_email : string := "Email không hợp lệ".
Definition username_too_short : string := "Tên đăng nhập phải có ít nhất 3 ký tự".
Definition password_too_short : string := "Mật khẩu phải có ít nhất 6 ký tự".
Definition passwords_differ : string := "Mật khẩu xác nhận không khớp".
Definition full_name_too_short : string := "Họ tên phải có ít nhất 2 ký tự".

Definition validateForm : C State bool :=
  let* formData := gets formData in
  (* Check required fields *)
  if negb (truthy (VStr (email formData))) || negb (truthy (VStr (username formData)))
     || negb (truthy (VStr (password formData))) || negb (truthy (VStr (full_name formData)))
  then setError (VStr fill_in_everything) >>> cret false
  (* Validate email format *)
  else if negb (test emailRegex (email formData))
  then setError (VStr invalid_email) >>> cret false
  (* Validate username length *)
  else if (String.length (username formData) <? 3)%nat
  then setError (VStr username_too_short) >>> cret false
  (* Validate password length *)
  else if (String.length (password formData) <? 6)%nat
  then setError (VStr password_too_short) >>> cret false
  (* Check password confirmation *)
  else if negb (String.eqb (password formData) (confirmPassword formData))
  then setError (VStr passwords_differ) >>> cret false
  (* Validate full name length *)
  else if (String.length (full_name formData) <? 2)%nat
  then setError (VStr full_name_too_short) >>> cret false
  else cret true.

(** [const { confirmPassword, ...userData } = formData] *)
Definition userData (formData : FormData) : value :=
  VObj [("email", VStr (email formData)); ("username", VStr (username formData));
        ("password", VStr (password formData)); ("full_name", VStr (full_name formData))].

Definition registration_failed : string := "Đăng ký thất bại".
Definition something_went_wrong : string := "Có lỗi xảy ra. Vui lòng thử lại sau.".

(** The submit handler; [e.preventDefault()] concerns the browser's own
    form submission and is left out. *)
Definition handleSubmit (auth : AuthProvider.Value) : C State value :=
  let* valid := validateForm in
  if negb valid then cret VUndefined
  else
    setIsLoading true >>>
    setError (VStr "") >>>
    setSuccess false >>>
    ctry_catch_finally
      (let* formData := gets formData in
       let* result := lift (AuthProvider.ctx_register auth (userData formData)) in
       let* succeeded := cmember result "success" in
       if truthy succeeded
       then
         setSuccess true >>>
         (* Redirect will happen automatically via useEffect when isAuthenticated changes *)
         setTimeout_navigate "/dashboard" 1500
       else
         let* message := cmember result "error" in
         setError (js_or message (VStr registration_failed)))
      (fun _ => setError (VStr something_went_wrong))
      (setIsLoading false) >>>
    cret VUndefined.

End Register.

(** The state after [validateForm] has rejected with [message]. *)
Definition with_form_error (message : string) (st : Register.State) : Register.State :=
  {| Register.formData := Register.formData st; Register.isLoading := Register.isLoading st;
     Register.error := VStr message; Register.success := Register.success st;
     Register.timers := Register.timers st |}.

Definition form_messages : list string :=
  [Register.fill_in_everything; Register.invalid_email; Register.username_too_short;
   Register.password_too_short; Register.passwords_differ; Register.full_name_too_short].

(** The state a submit of a valid form ends in, given what [register]
    returned. *)
Definition settled_form (result : value) (st : Register.State) : Register.State :=
  if truthy (prop result "success")
  then {| Register.formData := Register.formData st; Register.isLoading := false;
          Register.error := VStr ""; Register.success := true;
          Register.timers := (1500, "/dashboard") :: Register.timers st |}
  else {| Register.formData := Register.formData st; Register.isLoading := false;
          Register.error := js_or (prop result "error") (VStr Register.registration_failed);
          Register.success := false; Register.timers := Register.timers st |}.



Definition alice_fields : Register.FormData :=
  {| Register.email := "alice@example.org"; Register.username := "alice";
     Register.password := "secret"; Register.confirmPassword := "secret";
     Register.full_name := "Alice" |}.

Definition typed_in (f : Register.FormData) : Register.State :=
  {| Register.formData := f; Register.isLoading := false; Register.error := VStr "";
     Register.success := false; Register.timers := [] |}.

(** ** The task board: [pages/Tasks.jsx] *)

Module Tasks.

(** [t.status === status] for a task that is not nullish. *)
Definition has_status (status : string) (t : value) : bool :=
  match prop t "status" with
  | VStr s => String.eqb s status
  | _ => false
  end.

(** [tasks.filter((t) => t.status === status)], the array as a list;
    reading [status] of a [null] or [undefined] entry throws. *)
Fixpoint with_status (status : string) (tasks : list value) : Outcome (list value) :=
  match tasks with
  | [] => Return []
  | t :: rest =>
      if nullish t then Throw (TypeError ("Cannot read properties of " ++ to_string t))
      else match with_status status rest with
           | Return kept => Return (if has_status status t then t :: kept else kept)
           | Throw e => Throw e
           end
  end.

(** Group tasks by status for Kanban view. *)
Definition todoTasks := with_status "todo".
Definition inProgressTasks := with_status "in_progress".
Definition doneTasks := with_status "done".

End Tasks.

(** The task is in one of the three columns. *)
Definition on_board (t : value) : bool :=
  Tasks.has_status "todo" t || Tasks.has_status "in_progress" t || Tasks.has_status "done" t.

Definition task (id : Z) (status : string) : value :=
  VObj [("id", VNum id); ("status", VStr status)].

(** What was written to the console, newest first. *)
Fixpoint console_errors (t : list Event) : list (string * exn) :=
  match t with
  | [] => []
  | EConsoleError label e :: t' => (label, e) :: console_errors t'
  | _ :: t' => console_errors t'
  end.

(** Nothing was written to the console. *)
Definition same_console (w w' : World) : Prop :=
  console_errors (trace w') = console_errors (trace w).

(** The rejection the gateway throws for a reply that failed. *)
Definition rejection (reply : Reply) : exn :=
  match reply with
  | Replied r => AxiosError (Some r)
  | NoResponse => AxiosError None
  end.

(** ** Basic facts *)

Lemma interceptors_request_run (config : Config) (w : World) :
  api.interceptors.request config w = (Return (credentialed (localStorage w) config), w).
Proof.
  unfold api.interceptors.request, credentialed, bind, getItem.
  destruct (localStorage w !! "token") as [[|c t]|]; reflexivity.
Qed.

Lemma dispatch_run (config : Config) (w : World) :
  api.dispatch config w
  = (Return (credentialed (localStorage w) config),
     logged [ERequest (credentialed (localStorage w) config)] w).
Proof.
  unfold api.dispatch, bind. rewrite interceptors_request_run. reflexivity.
Qed.

Lemma settle_run (reply : Reply) (w : World) : api.settle reply w = settled reply w.
Proof.
  unfold api.settle, settled, bind, log, logged; simpl.
  destruct reply as [r|]; simpl.
  - destruct (api.validateStatus (status r)); [reflexivity|].
    unfold api.interceptors.response_rejected, bind; simpl.
    destruct (bool_decide (status r = 401)) eqn:E.
    + apply bool_decide_eq_true in E. rewrite bool_decide_eq_true_2 by congruence.
      reflexivity.
    + apply bool_decide_eq_false in E. rewrite bool_decide_eq_false_2 by congruence.
      reflexivity.
  - reflexivity.
Qed.

Lemma request_run (config : Config) (w : World) :
  api.request config w = requested config w.
Proof.
  unfold api.request, requested, api.exchange, bind.
  rewrite dispatch_run, settle_run. reflexivity.
Qed.

Arguments api.request : simpl never.
Arguments events_since : simpl never.

Ltac open_ops :=
  unfold AuthProvider.login, AuthProvider.register, AuthProvider.logout,
    AuthProvider.checkAuth, try_catch_finally, try_finally, try_catch, bind,
    apiService.call, api.post, api.get, api.call.

(** Run the next request of the goal, given how the backend answers it. *)
Ltac next_request H :=
  rewrite request_run; unfold requested, settled; cbn; rewrite H; cbn.

(** Split on how the backend answers the request at hand: 2xx, 401, another
    status, no answer. *)
Ltac any_reply w :=
  destruct (backend w (sent (trace w))) as [?r|]; cbn;
  [destruct (api.validateStatus (status r)) eqn:?V; cbn;
   [|destruct (bool_decide (status r = 401)) eqn:?E; cbn]|].

Lemma events_since_take (n : nat) (w w' : World) :
  length (trace w') = (n + length (trace w))%nat ->
  events_since w w' = take n (trace w').
Proof.
  intros H. unfold events_since. rewrite H. f_equal. lia.
Qed.

(** Replace [events_since w w'] by the events themselves once the trace of
    [w'] is the trace of [w] with a few events in front. *)
Ltac since :=
  first [ rewrite (events_since_take 0) by reflexivity
        | rewrite (events_since_take 1) by reflexivity
        | rewrite (events_since_take 2) by reflexivity
        | rewrite (events_since_take 3) by reflexivity
        | rewrite (events_since_take 4) by reflexivity
        | rewrite (events_since_take 5) by reflexivity ];
  cbn; rewrite ?take_0.

Ltac which_event H :=
  cbn in H;
  repeat match type of H with
         | _ \/ _ => destruct H as [H|H]
         | False => destruct H
         end;
  try discriminate H; try (injection H as H; subst).

(** ** The gateway *)

Lemma call_on_the_wire (method : Method) (url : string) (data params : value) (w : World) :
  requests (trace (snd (api.call method url data params w)))
  = credentialed (localStorage w) (api.defaults (VITE_API_URL w) method url data params)
      :: requests (trace w).
Proof.
  unfold api.call. rewrite request_run. unfold requested, settled. cbn.
  any_reply w; reflexivity.
Qed.

Lemma credentialed_Authorization (ls : gmap string string) (env : value)
    (method : Method) (url : string) (data params : value) :
  cfg_headers (credentialed ls (api.defaults env method url data params)) !! "Authorization"
  = expected_Authorization ls.
Proof.
  unfold credentialed, expected_Authorization.
  destruct (ls !! "token") as [[|c t]|]; cbn.
  - reflexivity.
  - apply lookup_insert_eq.
  - reflexivity.
Qed.

(** C7, as amended. Whatever endpoint of [apiService] is called, exactly one
    request goes on the wire, and it carries [Authorization: Bearer <token>]
    when storage holds a token that is not the empty string; when storage
    holds no token, or the empty string, it carries no [Authorization]
    header. *)
Theorem bearer_attached_once (e : apiService.Endpoint) (w : World) :
  exists c,
    requests (trace (snd (apiService.call e w))) = c :: requests (trace w) /\
    cfg_headers c !! "Authorization" = expected_Authorization (localStorage w).
Proof.
  destruct e; cbn [apiService.call];
    unfold api.get, api.post, api.put, api.patch, api.delete;
    eexists; (split; [apply call_on_the_wire | apply credentialed_Authorization]).
Qed.

(** C7 as first stated fails for a stored token that is the empty string:
    the request leaves without the header. *)
Lemma empty_token_sends_no_header :
  let w := page {["token" := ""]} [answer 200 (VObj [])] in
  let run := apiService.call (apiService.getProjects VUndefined) w in
  localStorage w !! "token" = Some "" /\
  (fun c => cfg_headers c !! "Authorization") <$> requests (trace (snd run)) = [None] /\
  (fun c => cfg_headers c !! "Authorization") <$> requests (trace (snd run))
    <> [Some "Bearer "].
Proof.
  cbv zeta. repeat split; try (vm_compute; reflexivity). vm_compute. discriminate.
Qed.

Lemma dispatch_all_frame (configs : list Config) (w : World) :
  let w' := snd (dispatch_all configs w) in
  fst (dispatch_all configs w) = Return tt /\
  localStorage w' = localStorage w /\
  location_href w' = location_href w /\
  removals "token" (trace w') = removals "token" (trace w) /\
  navigations "/login" (trace w') = navigations "/login" (trace w).
Proof.
  revert w. induction configs as [|c cs IH]; intros w; cbn; [auto 6|].
  unfold bind. rewrite dispatch_run. cbn.
  destruct (IH (logged [ERequest (credentialed (localStorage w) c)] w))
    as (H0 & H1 & H2 & H3 & H4).
  cbn in *. auto 6.
Qed.

Lemma awaited_run (reply : Reply) (w : World) :
  awaited reply w
  = (Return tt,
     if is_unauthorized reply then expelled (logged [EResponse reply] w)
     else logged [EResponse reply] w).
Proof.
  unfold awaited, try_catch, bind. rewrite settle_run. unfold settled.
  destruct reply as [r|]; cbn; [|reflexivity].
  destruct (api.validateStatus (status r)) eqn:V; cbn.
  - destruct (bool_decide (status r = 401)) eqn:E; [|reflexivity].
    apply bool_decide_eq_true in E. rewrite E in V. discriminate.
  - destruct (bool_decide (status r = 401)); reflexivity.
Qed.

Lemma settle_all_run (replies : list Reply) (w : World) :
  let w' := snd (settle_all replies w) in
  let n := unauthorized replies in
  removals "token" (trace w') = (removals "token" (trace w) + n)%nat /\
  navigations "/login" (trace w') = (navigations "/login" (trace w) + n)%nat /\
  localStorage w' = match n with
                    | O => localStorage w
                    | S _ => delete "token" (localStorage w)
                    end /\
  location_href w' = match n with
                     | O => location_href w
                     | S _ => "/login"
                     end.
Proof.
  revert w. induction replies as [|r rs IH]; intros w; cbn.
  - repeat split; lia.
  - unfold bind. rewrite awaited_run.
    destruct (is_unauthorized r); cbn.
    + destruct (IH (expelled (logged [EResponse r] w))) as (H1 & H2 & H3 & H4).
      rewrite H1, H2, H3, H4. cbn.
      destruct (unauthorized rs); rewrite ?delete_delete_eq; repeat split; lia.
    + destruct (IH (logged [EResponse r] w)) as (H1 & H2 & H3 & H4).
      rewrite H1, H2, H3, H4. cbn. auto.
Qed.

(** C4, as amended. Every reply with status 401 makes the gateway remove
    the token and assign [/login] to the location once: with [n] such
    replies among those of the requests in flight there are [n] removals
    and [n] redirects. After the first of them the token is absent and the
    location is [/login]; with none, storage and location are untouched. *)
Theorem unauthorized_replies_each_expel
    (configs : list Config) (replies : list Reply) (w : World) :
  let w' := snd (in_flight configs replies w) in
  let n := unauthorized replies in
  removals "token" (trace w') = (removals "token" (trace w) + n)%nat /\
  navigations "/login" (trace w') = (navigations "/login" (trace w) + n)%nat /\
  localStorage w' = match n with
                    | O => localStorage w
                    | S _ => delete "token" (localStorage w)
                    end /\
  location_href w' = match n with
                     | O => location_href w
                     | S _ => "/login"
                     end.
Proof.
  cbv zeta. unfold in_flight, bind.
  destruct (dispatch_all configs w) as [o w1] eqn:D.
  pose proof (dispatch_all_frame configs w) as F. rewrite D in F. cbn in F.
  destruct F as (-> & F1 & F2 & F3 & F4).
  rewrite <- F1, <- F2, <- F3, <- F4. apply settle_all_run.
Qed.

(** C4 as first stated fails as soon as two requests are answered with a
    401: the token is removed twice and the redirect is assigned twice. *)
Lemma two_unauthorized_replies_expel_twice :
  let w := signed_in "T" alice [] in
  let configs := [api.defaults VUndefined GET "/api/projects" VUndefined VUndefined;
                  api.defaults VUndefined GET "/api/tasks" VUndefined VUndefined] in
  let replies := [answer 401 (detail "Token expired"); answer 401 (detail "Token expired")] in
  let w' := snd (in_flight configs replies w) in
  removals "token" (trace w') = 2%nat /\
  navigations "/login" (trace w') = 2%nat /\
  removals "token" (trace w') <> 1%nat /\
  navigations "/login" (trace w') <> 1%nat.
Proof.
  cbv zeta. repeat split; try (vm_compute; reflexivity); vm_compute; discriminate.
Qed.

(** ** login *)

(** The successful path of [login], in full. *)
Lemma login_authenticates (w : World) (username password : value)
    (T : string) (r1 r2 : Response) :
  backend w (sent (trace w)) = Replied r1 ->
  api.validateStatus (status r1) = true ->
  prop (data r1) "access_token" = VStr T ->
  backend w (S (sent (trace w))) = Replied r2 ->
  api.validateStatus (status r2) = true ->
  let run := AuthProvider.login username password w in
  fst run = Return (VObj [("success", VBool true)]) /\
  session (snd run)
  = {| user := data r2; isAuthenticated := true;
       loading := loading (session w); error := VNull |} /\
  localStorage (snd run) = <["token" := T]> (localStorage w).
Proof.
  intros H1 V1 HT H2 V2.
  assert (nullish (data r1) = false) as Hn by (by destruct (data r1)).
  cbv zeta. open_ops. cbn.
  next_request H1. rewrite V1.
  unfold member. cbn. rewrite Hn, HT. cbn.
  next_request H2. rewrite V2. cbn. auto.
Qed.

(** C1. When the backend answers the credential exchange with a 2xx response
    carrying [access_token = T] and the following "who am I" request with a
    2xx response carrying profile [P], [login] returns [{success: true}],
    the session is authenticated, the stored token is [T] and the session's
    user is [P]. *)
Theorem login_succeeds (w : World) (username password : value)
    (T : string) (P : value) (r1 r2 : Response) :
  backend w (sent (trace w)) = Replied r1 ->
  api.validateStatus (status r1) = true ->
  prop (data r1) "access_token" = VStr T ->
  backend w (S (sent (trace w))) = Replied r2 ->
  api.validateStatus (status r2) = true ->
  data r2 = P ->
  let run := AuthProvider.login username password w in
  fst run = Return (VObj [("success", VBool true)]) /\
  isAuthenticated (session (snd run)) = true /\
  localStorage (snd run) !! "token" = Some T /\
  user (session (snd run)) = P.
Proof.
  intros H1 V1 HT H2 V2 HP. cbv zeta.
  destruct (login_authenticates w username password T r1 r2 H1 V1 HT H2 V2)
    as (Hret & Hs & Hls).
  rewrite Hret, Hs, Hls, lookup_insert_eq. cbn. auto.
Qed.

Lemma login_succeeds_witness :
  let run := AuthProvider.login (VStr "alice") (VStr "secret")
               (page ∅ [answer 200 (bearer "T"); answer 200 alice]) in
  fst run = Return (VObj [("success", VBool true)]) /\
  isAuthenticated (session (snd run)) = true /\
  localStorage (snd run) !! "token" = Some "T" /\
  user (session (snd run)) = alice.
Proof.
  exact (login_succeeds (page ∅ [answer 200 (bearer "T"); answer 200 alice])
           (VStr "alice") (VStr "secret") "T" alice
           {| status := 200; data := bearer "T" |} {| status := 200; data := alice |}
           eq_refl eq_refl eq_refl eq_refl eq_refl eq_refl).
Defined.

(** C2, as amended. When the backend answers the credential exchange with a
    response whose status is not 2xx, [login] returns
    [{success: false, error: message}] and records [message] as the session's
    error, where [message] is the [detail] of the response body when that is
    truthy and the generic text otherwise. The stored token is what it was
    before the call when the status is not 401; on a 401 the response
    interceptor has removed it and pointed the page at [/login]. *)
Theorem login_rejected (w : World) (username password : value) (r : Response) :
  backend w (sent (trace w)) = Replied r ->
  api.validateStatus (status r) = false ->
  let run := AuthProvider.login username password w in
  let message := js_or (opt_prop (data r) "detail") (VStr AuthProvider.login_failed) in
  fst run = Return (VObj [("success", VBool false); ("error", message)]) /\
  error (session (snd run)) = message /\
  (status r <> 401 -> localStorage (snd run) = localStorage w) /\
  (status r = 401 ->
     localStorage (snd run) = delete "token" (localStorage w) /\
     location_href (snd run) = "/login").
Proof.
  intros H V. cbv zeta. open_ops. cbn.
  next_request H. rewrite V.
  destruct (bool_decide (status r = 401)) eqn:E; cbn.
  - apply bool_decide_eq_true in E. repeat split; auto. congruence.
  - apply bool_decide_eq_false in E. repeat split; auto; congruence.
Qed.

Lemma login_rejected_witness :
  let w := signed_in "old" alice [answer 422 (detail "Malformed credentials")] in
  let run := AuthProvider.login (VStr "alice") VUndefined w in
  fst run = Return (VObj [("success", VBool false);
                          ("error", VStr "Malformed credentials")]) /\
  localStorage (snd run) !! "token" = Some "old".
Proof.
  pose proof (login_rejected
                (signed_in "old" alice [answer 422 (detail "Malformed credentials")])
                (VStr "alice") VUndefined
                {| status := 422; data := detail "Malformed credentials" |}
                eq_refl eq_refl) as (Hres & _ & Hkeep & _).
  cbv zeta. split; [exact Hres|].
  rewrite Hkeep; [reflexivity | discriminate].
Defined.

(** C2 as first stated fails when the rejection is a 401: a token that was
    stored before the call is gone after it. *)
Lemma login_rejected_401_drops_token :
  let w := signed_in "old" alice [answer 401 (detail "Incorrect username or password")] in
  let run := AuthProvider.login (VStr "bob") (VStr "guess") w in
  failed (backend w 0) = true /\
  fst run = Return (VObj [("success", VBool false);
                          ("error", VStr "Incorrect username or password")]) /\
  localStorage w !! "token" = Some "old" /\
  localStorage (snd run) !! "token" = None /\
  localStorage (snd run) !! "token" <> localStorage w !! "token".
Proof.
  cbv zeta. repeat split; try (vm_compute; reflexivity).
  vm_compute. discriminate.
Qed.

(** ** checkAuth *)

(** C3. [checkAuth] on a freshly mounted provider. With no token stored the
    store settles as anonymous (not loading, not authenticated) and nothing
    at all happens on the network or elsewhere. With a token stored, when
    the "who am I" request of the run is answered with a 2xx response the
    store settles as authenticated with the response body as user; when it
    is answered with any other status, or not answered, the token is gone
    from storage and the store settles as anonymous. A stored token that is
    not the empty string does lead to that request, carrying the token, and
    its answer is the backend's. *)
Theorem checkAuth_at_startup (w : World) :
  session w = AuthProvider.initial ->
  let run := AuthProvider.checkAuth w in
  let new := events_since w (snd run) in
  (localStorage w !! "token" = None ->
     loading (session (snd run)) = false /\
     isAuthenticated (session (snd run)) = false /\
     new = []) /\
  (forall t r, localStorage w !! "token" = Some t ->
     In (EResponse (Replied r)) new -> api.validateStatus (status r) = true ->
     loading (session (snd run)) = false /\
     isAuthenticated (session (snd run)) = true /\
     user (session (snd run)) = data r) /\
  (forall t reply, localStorage w !! "token" = Some t ->
     In (EResponse reply) new -> failed reply = true ->
     localStorage (snd run) !! "token" = None /\
     loading (session (snd run)) = false /\
     isAuthenticated (session (snd run)) = false) /\
  (forall t, localStorage w !! "token" = Some t -> t <> "" ->
     requests new =
       [set_Authorization ("Bearer " ++ t)
          (api.defaults (VITE_API_URL w) GET "/api/auth/me" VUndefined VUndefined)] /\
     In (EResponse (backend w (sent (trace w)))) new).
Proof.
  intros Hinit. cbv zeta. open_ops. unfold getItem, credentialed.
  destruct (localStorage w !! "token") as [[|c t]|] eqn:Htok; cbn.
  - since.
    split; [discriminate|]. split; [intros ? ? _ []|]. split; [intros ? ? _ []|].
    intros t' [= <-] Hne. congruence.
  - rewrite request_run. unfold requested, settled, credentialed. rewrite Htok. cbn.
    any_reply w.
    all: since.
    all: rewrite ?Hinit; cbn.
    all: (split; [discriminate|]).
    all: split; [intros t' r' _ Hin Hok; which_event Hin; try congruence; auto|].
    all: split; [intros t' reply' _ Hin Hbad; which_event Hin;
                 rewrite ?lookup_delete_eq; auto;
                 cbn in Hbad; rewrite V in Hbad; discriminate|].
    all: intros t' [= <-] _; tauto.
  - since. rewrite Hinit. cbn.
    split; [auto|]. split; [discriminate|]. split; discriminate.
Qed.

Lemma checkAuth_at_startup_witness :
  let run := AuthProvider.checkAuth (page {["token" := "T"]} [answer 200 alice]) in
  loading (session (snd run)) = false /\
  isAuthenticated (session (snd run)) = true /\
  user (session (snd run)) = alice.
Proof.
  pose proof (checkAuth_at_startup (page {["token" := "T"]} [answer 200 alice]) eq_refl)
    as (_ & Hok & _).
  apply (Hok "T" {| status := 200; data := alice |}).
  - reflexivity.
  - vm_compute. left. reflexivity.
  - reflexivity.
Defined.

(** ** logout *)

(** Whatever the backend does with the invalidation request, [logout]
    returns, and leaves this session and this storage. *)
Lemma logout_run (w : World) :
  let run := AuthProvider.logout w in
  fst run = Return VUndefined /\
  session (snd run)
  = {| user := VNull; isAuthenticated := false;
       loading := loading (session w); error := VNull |} /\
  localStorage (snd run) = delete "token" (localStorage w).
Proof.
  cbv zeta. open_ops. rewrite request_run. unfold requested, settled. cbn.
  any_reply w.
  all: rewrite ?delete_delete_eq; auto.
Qed.

(** C5. Whether the invalidation request succeeds, is answered with an
    error or gets no answer, [logout] completes without raising and ends
    with the session not authenticated, no user and no token in storage. *)
Theorem logout_always_anonymous (w : World) :
  let run := AuthProvider.logout w in
  fst run = Return VUndefined /\
  isAuthenticated (session (snd run)) = false /\
  user (session (snd run)) = VNull /\
  localStorage (snd run) !! "token" = None.
Proof.
  destruct (logout_run w) as (Hret & Hs & Hls). cbv zeta.
  rewrite Hret, Hs, Hls, lookup_delete_eq. auto.
Qed.

(** C6. A second [logout] right after a first one changes neither the
    session nor the storage, whatever the backend answers to either. *)
Theorem logout_idempotent (w : World) :
  let once := snd (AuthProvider.logout w) in
  let twice := snd (AuthProvider.logout once) in
  session twice = session once /\ localStorage twice = localStorage once.
Proof.
  cbv zeta.
  destruct (logout_run w) as (_ & Hs & Hls).
  destruct (logout_run (snd (AuthProvider.logout w))) as (_ & Hs' & Hls').
  rewrite Hs', Hls', Hs, Hls. cbn. rewrite delete_delete_eq. auto.
Qed.

(** C9. After [logout] the session's error is [null], whatever it was
    before. *)
Theorem logout_clears_error (w : World) :
  error (session (snd (AuthProvider.logout w))) = VNull.
Proof.
  destruct (logout_run w) as (_ & Hs & _). rewrite Hs. reflexivity.
Qed.

(** ** register *)

Arguments AuthProvider.login : simpl never.

(** C8. A registration that succeeds, followed by its automatic login, and
    a direct [login] with the [username] and [password] of the same form,
    started from the same session and storage and given the same token [T]
    and profile [P] by the backend, both report success and end in the same
    session and the same storage: authenticated, user [P], token [T]. *)
Theorem register_then_login_as_login (w1 w2 : World) (userData : value)
    (T : string) (P : value) (r0 r1 r2 r1' r2' : Response) :
  session w1 = session w2 ->
  localStorage w1 = localStorage w2 ->
  nullish userData = false ->
  backend w1 (sent (trace w1)) = Replied r0 -> api.validateStatus (status r0) = true ->
  backend w1 (S (sent (trace w1))) = Replied r1 -> api.validateStatus (status r1) = true ->
  prop (data r1) "access_token" = VStr T ->
  backend w1 (S (S (sent (trace w1)))) = Replied r2 -> api.validateStatus (status r2) = true ->
  data r2 = P ->
  backend w2 (sent (trace w2)) = Replied r1' -> api.validateStatus (status r1') = true ->
  prop (data r1') "access_token" = VStr T ->
  backend w2 (S (sent (trace w2))) = Replied r2' -> api.validateStatus (status r2') = true ->
  data r2' = P ->
  let a := AuthProvider.register userData w1 in
  let b := AuthProvider.login (prop userData "username") (prop userData "password") w2 in
  fst a = Return (VObj [("success", VBool true); ("user", data r0)]) /\
  fst b = Return (VObj [("success", VBool true)]) /\
  session (snd a) = session (snd b) /\
  localStorage (snd a) = localStorage (snd b) /\
  isAuthenticated (session (snd a)) = true /\
  user (session (snd a)) = P /\
  localStorage (snd a) !! "token" = Some T.
Proof.
  intros Hs Hls Hu H0 V0 H1 V1 HT H2 V2 HP H1' V1' HT' H2' V2' HP'.
  cbv zeta.
  destruct (login_authenticates w2 (prop userData "username") (prop userData "password")
              T r1' r2' H1' V1' HT' H2' V2') as (Hb & Hbs & Hbl).
  rewrite Hb, Hbs, Hbl. clear Hb Hbs Hbl.
  unfold AuthProvider.register, try_catch, bind, apiService.call, api.post, api.call.
  cbn. next_request H0. rewrite V0. unfold member. rewrite Hu. cbn.
  match goal with
  | |- context [AuthProvider.login ?u ?p ?w] =>
      destruct (login_authenticates w u p T r1 r2 H1 V1 HT H2 V2) as (Ha & Has & Hal);
      destruct (AuthProvider.login u p w) as [o w'] eqn:L
  end.
  cbn in Ha, Has, Hal. subst o. cbn.
  rewrite Has, Hal. cbn. rewrite Hs, Hls, HP, HP', lookup_insert_eq. auto 8.
Qed.

Lemma register_then_login_as_login_witness :
  let a := AuthProvider.register alice_form
             (page ∅ [answer 201 alice; answer 200 (bearer "T"); answer 200 alice]) in
  let b := AuthProvider.login (VStr "alice") (VStr "secret")
             (page ∅ [answer 200 (bearer "T"); answer 200 alice]) in
  fst a = Return (VObj [("success", VBool true); ("user", alice)]) /\
  fst b = Return (VObj [("success", VBool true)]) /\
  session (snd a) = session (snd b) /\
  localStorage (snd a) = localStorage (snd b) /\
  isAuthenticated (session (snd a)) = true /\
  user (session (snd a)) = alice /\
  localStorage (snd a) !! "token" = Some "T".
Proof.
  exact (register_then_login_as_login
           (page ∅ [answer 201 alice; answer 200 (bearer "T"); answer 200 alice])
           (page ∅ [answer 200 (bearer "T"); answer 200 alice])
           alice_form "T" alice
           {| status := 201; data := alice |}
           {| status := 200; data := bearer "T" |} {| status := 200; data := alice |}
           {| status := 200; data := bearer "T" |} {| status := 200; data := alice |}
           eq_refl eq_refl eq_refl eq_refl eq_refl eq_refl eq_refl eq_refl eq_refl
           eq_refl eq_refl eq_refl eq_refl eq_refl eq_refl eq_refl eq_refl).
Defined.

(** ** Which operations can raise *)

Lemma try_catch_returns {A} (body : M A) (handler : exn -> M A) :
  (forall e, returns (handler e)) -> returns (try_catch body handler).
Proof.
  intros H w. unfold try_catch.
  destruct (body w) as [[a|e] w']; [by exists a | apply H].
Qed.

Lemma try_catch_finally_returns {A} (body : M A) (handler : exn -> M A) (fin : M unit) :
  (forall e, returns (handler e)) -> returns fin ->
  returns (try_catch_finally body handler fin).
Proof.
  intros Hh Hf w. unfold try_catch_finally, try_finally.
  destruct (try_catch_returns body handler Hh w) as [a Ha].
  destruct (try_catch body handler w) as [o w']. cbn in Ha. subst o.
  destruct (Hf w') as [[] Hu]. destruct (fin w') as [o' w'']. cbn in Hu. subst o'.
  by exists a.
Qed.

Lemma then_returns {A B} (c : M A) (k : A -> M B) :
  returns c -> (forall a, returns (k a)) -> returns (bind c k).
Proof.
  intros Hc Hk w. unfold bind. destruct (Hc w) as [a Ha].
  destruct (c w) as [o w']. cbn in Ha. subst o. apply Hk.
Qed.

Lemma yields_ret {A} (a : A) (Q : A -> Prop) : Q a -> yields (ret a) Q.
Proof. intros H w a' [= <-]. exact H. Qed.

Lemma yields_bind {A B} (c : M A) (k : A -> M B) (Q : B -> Prop) :
  (forall a, yields (k a) Q) -> yields (bind c k) Q.
Proof.
  intros H w b. unfold bind. destruct (c w) as [[a|e] w']; [apply H | discriminate].
Qed.

Lemma yields_try_catch {A} (body : M A) (handler : exn -> M A) (Q : A -> Prop) :
  yields body Q -> (forall e, yields (handler e) Q) -> yields (try_catch body handler) Q.
Proof.
  intros Hb Hh w a. unfold try_catch.
  specialize (Hb w). destruct (body w) as [[a'|e] w']; [exact (Hb a) | apply Hh].
Qed.

Lemma success_shaped (b : bool) (rest : list (string * value)) :
  result_shaped (VObj (("success", VBool b) :: rest)).
Proof. by exists b. Qed.

Lemma login_returns (username password : value) :
  returns (AuthProvider.login username password).
Proof.
  apply try_catch_returns. intros e w. eexists. reflexivity.
Qed.

Lemma login_shaped (username password : value) :
  yields (AuthProvider.login username password) result_shaped.
Proof.
  apply yields_try_catch; [|intros e];
    repeat (apply yields_bind; intros ?); apply yields_ret, success_shaped.
Qed.

Lemma register_returns (userData : value) : returns (AuthProvider.register userData).
Proof.
  apply try_catch_returns. intros e w. eexists. reflexivity.
Qed.

Lemma register_shaped (userData : value) :
  yields (AuthProvider.register userData) result_shaped.
Proof.
  apply yields_try_catch; [|intros e];
    repeat (apply yields_bind; intros ?);
    try match goal with |- yields (if ?b then _ else _) _ => destruct b end;
    apply yields_ret, success_shaped.
Qed.

Lemma then_ret {A B} (c : M A) (b : B) :
  returns c -> forall w, fst (bind c (fun _ => ret b) w) = Return b.
Proof.
  intros Hc w. unfold bind. destruct (Hc w) as [a Ha].
  destruct (c w) as [o w']. cbn in Ha. subst o. reflexivity.
Qed.

Lemma logout_returns (w : World) : fst (AuthProvider.logout w) = Return VUndefined.
Proof.
  apply then_ret.
  apply try_catch_finally_returns; intros; intros w'; eexists; reflexivity.
Qed.

Lemma checkAuth_returns (w : World) : fst (AuthProvider.checkAuth w) = Return VUndefined.
Proof.
  unfold AuthProvider.checkAuth, bind at 1, getItem.
  destruct (negb _); [reflexivity|].
  apply then_ret.
  apply try_catch_finally_returns; intros; intros w'; eexists; reflexivity.
Qed.

(** C10. [useAuth] with no [AuthProvider] above the caller throws
    [Error("useAuth must be used within an AuthProvider")]; under a provider
    it returns the provider's value. The operations that value exposes
    complete with a value from every world and for every argument, so none
    of them raises: [login] and [register] with an object that has a boolean
    [success] field, [logout] and [checkAuth] with [undefined]. *)
Theorem useAuth_is_the_only_raiser :
  useAuth None = Throw (Error "useAuth must be used within an AuthProvider") /\
  (forall context, useAuth (Some context) = Return context) /\
  (forall username password,
     returns (AuthProvider.login username password) /\
     yields (AuthProvider.login username password) result_shaped) /\
  (forall userData,
     returns (AuthProvider.register userData) /\
     yields (AuthProvider.register userData) result_shaped) /\
  (forall w, fst (AuthProvider.logout w) = Return VUndefined) /\
  (forall w, fst (AuthProvider.checkAuth w) = Return VUndefined).
Proof.
  split; [reflexivity|]. split; [reflexivity|].
  split; [intros; split; [apply login_returns | apply login_shaped]|].
  split; [intros; split; [apply register_returns | apply register_shaped]|].
  split; [apply logout_returns | apply checkAuth_returns].
Qed.

(** * Further properties of the gateway and the session store *)

Ltac fallback_truthy :=
  unfold js_or;
  match goal with
  | |- truthy (if truthy ?a then _ else _) = true =>
      destruct (truthy a) eqn:?; [assumption|reflexivity]
  | |- truthy (VStr _) = true => reflexivity
  end.

(** Split on a reply known to be a failure: a response whose status does
    not validate, or no response. *)
Ltac failed_reply H :=
  match type of H with
  | failed ?reply = true =>
      let r := fresh "r" in
      destruct reply as [r|] eqn:?Hb; cbn in H;
      [apply negb_true_iff in H|]
  end.

(** Run every request of the goal against every kind of reply. *)
Ltac each_reply :=
  repeat match goal with
         | |- context [api.request ?c ?w] =>
             rewrite (request_run c w); unfold requested, settled; cbn
         | |- context [match backend ?w ?n with _ => _ end] =>
             destruct (backend w n) as [?r|]; cbn
         | |- context [if api.validateStatus (status ?r) then _ else _] =>
             destruct (api.validateStatus (status r)); cbn
         | |- context [if bool_decide (status ?r = 401) then _ else _] =>
             destruct (bool_decide (status r = 401)); cbn
         | |- context [if nullish ?v then _ else _] =>
             destruct (nullish v); cbn
         end.

(** ** The gateway passes everything but a 401 through *)

Lemma request_effect (config : Config) (w : World) :
  let reply := backend w (sent (trace w)) in
  let run := api.request config w in
  fst run = delivered reply /\
  session (snd run) = session w /\
  localStorage (snd run)
  = (if is_unauthorized reply then delete "token" (localStorage w) else localStorage w) /\
  location_href (snd run)
  = (if is_unauthorized reply then "/login" else location_href w).
Proof.
  cbv zeta. rewrite request_run. unfold requested, settled, delivered. cbn.
  destruct (backend w (sent (trace w))) as [r|]; cbn; [|auto].
  destruct (api.validateStatus (status r)) eqn:V; cbn.
  - destruct (bool_decide (status r = 401)) eqn:E; [|auto].
    apply bool_decide_eq_true in E. rewrite E in V. discriminate.
  - destruct (bool_decide (status r = 401)); cbn; auto.
Qed.

Lemma call_effect (e : apiService.Endpoint) (w : World) :
  let reply := backend w (sent (trace w)) in
  let run := apiService.call e w in
  fst run = delivered reply /\
  session (snd run) = session w /\
  localStorage (snd run)
  = (if is_unauthorized reply then delete "token" (localStorage w) else localStorage w) /\
  location_href (snd run)
  = (if is_unauthorized reply then "/login" else location_href w).
Proof.
  destruct e; cbn [apiService.call];
    unfold api.get, api.post, api.put, api.patch, api.delete, api.call;
    apply request_effect.
Qed.

(** X1. Every [apiService] call hands its caller the backend's reply
    untouched: the response itself when the status is 2xx, a rejection
    carrying that response for any other status, a rejection without a
    response when the network failed. Storage and location are left alone
    unless the status is 401, in which case the token is removed and the
    location becomes [/login]; the rejection is still thrown to the caller. *)
Theorem call_passes_through (e : apiService.Endpoint) (w : World) :
  let reply := backend w (sent (trace w)) in
  let run := apiService.call e w in
  fst run = delivered reply /\
  localStorage (snd run)
  = (if is_unauthorized reply then delete "token" (localStorage w) else localStorage w) /\
  location_href (snd run)
  = (if is_unauthorized reply then "/login" else location_href w).
Proof.
  destruct (call_effect e w) as (H1 & _ & H2 & H3). auto.
Qed.

(** X2. No [apiService] call changes the session cells, whatever the reply:
    after a 401 has removed the token and redirected, [isAuthenticated] and
    [user] are still what they were. *)
Theorem call_leaves_session (e : apiService.Endpoint) (w : World) :
  session (snd (apiService.call e w)) = session w.
Proof.
  destruct (call_effect e w) as (_ & H & _). exact H.
Qed.

(** ** Only the token key of storage is ever written *)

Section Frames.
Context (R : World -> World -> Prop) `{!PreOrder R}.

Lemma keeps_ret {A} (a : A) : keeps R (ret a).
Proof. intros w. reflexivity. Qed.

Lemma keeps_throw {A} (e : exn) : keeps R (@throw A e).
Proof. intros w. reflexivity. Qed.

Lemma keeps_getItem (k : string) : keeps R (getItem k).
Proof. intros w. reflexivity. Qed.

Lemma keeps_member (v : value) (k : string) : keeps R (member v k).
Proof. unfold member. destruct (nullish v); intros w; reflexivity. Qed.

Lemma keeps_bind {A B} (c : M A) (k : A -> M B) :
  keeps R c -> (forall a, keeps R (k a)) -> keeps R (bind c k).
Proof.
  intros Hc Hk w. unfold bind. specialize (Hc w).
  destruct (c w) as [[a|e] w']; cbn in *; [|exact Hc].
  etrans; [exact Hc | apply Hk].
Qed.

Lemma keeps_try_catch {A} (body : M A) (handler : exn -> M A) :
  keeps R body -> (forall e, keeps R (handler e)) -> keeps R (try_catch body handler).
Proof.
  intros Hb Hh w. unfold try_catch. specialize (Hb w).
  destruct (body w) as [[a|e] w']; cbn in *; [exact Hb|].
  etrans; [exact Hb | apply Hh].
Qed.

Lemma keeps_try_finally {A} (body : M A) (fin : M unit) :
  keeps R body -> keeps R fin -> keeps R (try_finally body fin).
Proof.
  intros Hb Hf w. unfold try_finally. specialize (Hb w).
  destruct (body w) as [o w']. specialize (Hf w').
  destruct (fin w') as [[u|e] w'']; cbn in *; etrans; eauto.
Qed.

Lemma keeps_if {A} (b : bool) (c1 c2 : M A) :
  keeps R c1 -> keeps R c2 -> keeps R (if b then c1 else c2).
Proof. by destruct b. Qed.

End Frames.

#[local] Instance same_elsewhere_preorder : PreOrder same_elsewhere.
Proof.
  split.
  - by intros w k _.
  - intros w1 w2 w3 H1 H2 k Hk. rewrite H2, H1; auto.
Qed.

Lemma call_same_elsewhere (e : apiService.Endpoint) : keeps same_elsewhere (apiService.call e).
Proof.
  intros w k Hk. destruct (call_effect e w) as (_ & _ & -> & _).
  destruct (is_unauthorized _); [by rewrite lookup_delete_ne | reflexivity].
Qed.

Lemma session_setter_same_elsewhere (f : Session -> Session) :
  keeps same_elsewhere (fun w => (Return tt, with_session f w)).
Proof. by intros w k _. Qed.

Lemma log_same_elsewhere (e : Event) : keeps same_elsewhere (log e).
Proof. by intros w k _. Qed.

Lemma setItem_same_elsewhere (v : value) : keeps same_elsewhere (setItem "token" v).
Proof. intros w k Hk. cbn. by rewrite lookup_insert_ne. Qed.

Lemma removeItem_same_elsewhere : keeps same_elsewhere (removeItem "token").
Proof. intros w k Hk. cbn. by rewrite lookup_delete_ne. Qed.

Ltac frame_steps :=
  repeat first
    [ apply keeps_bind; [typeclasses eauto| |intros ?]
    | apply keeps_try_catch; [typeclasses eauto| |intros ?]
    | apply keeps_try_finally; [typeclasses eauto| |]
    | apply keeps_ret; typeclasses eauto
    | apply keeps_throw; typeclasses eauto
    | apply keeps_member; typeclasses eauto
    | apply keeps_getItem; typeclasses eauto
    | apply keeps_if
    | apply call_same_elsewhere
    | apply session_setter_same_elsewhere
    | apply setItem_same_elsewhere
    | apply removeItem_same_elsewhere
    | apply log_same_elsewhere ].

(** X3. Of everything in [localStorage], the gateway and the session store
    write the ["token"] key only: after any [apiService] call, [login],
    [register], [logout] or [checkAuth], whether it returned or threw,
    every other key holds what it held before. *)
Theorem only_the_token_key_is_written :
  (forall e, keeps same_elsewhere (apiService.call e)) /\
  (forall username password, keeps same_elsewhere (AuthProvider.login username password)) /\
  (forall userData, keeps same_elsewhere (AuthProvider.register userData)) /\
  keeps same_elsewhere AuthProvider.logout /\
  keeps same_elsewhere AuthProvider.checkAuth.
Proof.
  split; [apply call_same_elsewhere|].
  split; [intros; unfold AuthProvider.login; frame_steps|].
  split; [intros; unfold AuthProvider.register, AuthProvider.login; frame_steps|].
  split.
  - unfold AuthProvider.logout, try_catch_finally. frame_steps.
  - unfold AuthProvider.checkAuth, try_catch_finally. frame_steps.
Qed.

(** ** login, path by path *)

Ltac login_fails :=
  right; eexists; split; [reflexivity|]; split; [fallback_truthy|reflexivity].

(** X4. [login] is all or nothing for the session: either it returns
    [{success: true}] with the session authenticated, its error cleared and
    a token in storage, or it returns [{success: false, error: message}]
    with a truthy [message], and then the session is what it was before the
    call except that its error is [message]: the authenticated flag and the
    user are not touched by a failed login. *)
Theorem login_all_or_nothing (w : World) (username password : value) :
  let run := AuthProvider.login username password w in
  (fst run = Return (VObj [("success", VBool true)]) /\
   isAuthenticated (session (snd run)) = true /\
   error (session (snd run)) = VNull /\
   is_Some (localStorage (snd run) !! "token")) \/
  (exists message,
     fst run = Return (failure message) /\
     truthy message = true /\
     session (snd run) = with_error message (session w)).
Proof.
  cbv zeta. open_ops. cbn.
  rewrite request_run. unfold requested, settled. cbn.
  any_reply w; try login_fails.
  unfold member. destruct (nullish (data r)) eqn:Hn; cbn; [login_fails|].
  rewrite request_run. unfold requested, settled. cbn.
  destruct (backend w (S (sent (trace w)))) as [r2|]; cbn;
    [destruct (api.validateStatus (status r2)) eqn:V2; cbn;
     [|destruct (bool_decide (status r2 = 401)); cbn]|]; try login_fails.
  left. rewrite lookup_insert_eq. repeat split; eauto.
Qed.



(** X6. When the credential exchange gets no answer, or a 2xx answer
    without a body, [login] returns [{success: false}] with the generic
    message and records it as the session's error; storage and location are
    untouched and exactly one request was sent: no profile request
    follows. *)
Theorem login_single_request_failure (w : World) (username password : value) :
  (backend w (sent (trace w)) = NoResponse \/
   exists r, backend w (sent (trace w)) = Replied r /\
             api.validateStatus (status r) = true /\ nullish (data r) = true) ->
  let run := AuthProvider.login username password w in
  fst run = Return (failure (VStr AuthProvider.login_failed)) /\
  session (snd run) = with_error (VStr AuthProvider.login_failed) (session w) /\
  localStorage (snd run) = localStorage w /\
  location_href (snd run) = location_href w /\
  sent (trace (snd run)) = S (sent (trace w)).
Proof.
  intros [H|(r & H & V & Hn)]; cbv zeta; open_ops; cbn.
  - next_request H. auto.
  - next_request H. rewrite V. unfold member. cbn. rewrite Hn. cbn. auto 6.
Qed.

Lemma login_single_request_failure_witness :
  let w := signed_in "old" alice [] in
  let run := AuthProvider.login (VStr "alice") (VStr "secret") w in
  fst run = Return (failure (VStr AuthProvider.login_failed)) /\
  localStorage (snd run) = localStorage w /\
  sent (trace (snd run)) = 1%nat.
Proof.
  pose proof (login_single_request_failure (signed_in "old" alice [])
                (VStr "alice") (VStr "secret") (or_introl eq_refl))
    as (Hres & _ & Hls & _ & Hn).
  cbv zeta. auto.
Defined.

(** X7. When the credential exchange is answered 2xx with a body that has
    no [access_token], [login] stores the text ["undefined"] as the token
    and sends the profile request with [Authorization: Bearer undefined];
    if that request is answered 2xx, [login] reports success and the session
    is authenticated. *)
Theorem login_reply_without_token (w : World) (username password : value) (r1 r2 : Response) :
  backend w (sent (trace w)) = Replied r1 ->
  api.validateStatus (status r1) = true ->
  nullish (data r1) = false ->
  prop (data r1) "access_token" = VUndefined ->
  backend w (S (sent (trace w))) = Replied r2 ->
  api.validateStatus (status r2) = true ->
  let run := AuthProvider.login username password w in
  fst run = Return (VObj [("success", VBool true)]) /\
  isAuthenticated (session (snd run)) = true /\
  localStorage (snd run) !! "token" = Some "undefined" /\
  exists me rest,
    requests (trace (snd run)) = me :: rest /\
    cfg_url me = "/api/auth/me" /\
    cfg_headers me !! "Authorization" = Some "Bearer undefined".
Proof.
  intros H1 V1 Hn HT H2 V2. cbv zeta. open_ops. cbn.
  next_request H1. rewrite V1. unfold member. cbn. rewrite Hn, HT. cbn.
  next_request H2. rewrite V2. cbn.
  rewrite lookup_insert_eq. repeat split; auto.
  eexists _, _. split; [reflexivity|]. unfold credentialed. cbn.
  rewrite lookup_insert_eq. cbn. split; [reflexivity|]. apply lookup_insert_eq.
Qed.

Lemma login_reply_without_token_witness :
  let run := AuthProvider.login (VStr "alice") (VStr "secret")
               (page ∅ [answer 200 (detail "ok"); answer 200 alice]) in
  fst run = Return (VObj [("success", VBool true)]) /\
  localStorage (snd run) !! "token" = Some "undefined".
Proof.
  pose proof (login_reply_without_token
                (page ∅ [answer 200 (detail "ok"); answer 200 alice])
                (VStr "alice") (VStr "secret")
                {| status := 200; data := detail "ok" |} {| status := 200; data := alice |}
                eq_refl eq_refl eq_refl eq_refl eq_refl eq_refl) as (Hres & _ & Htok & _).
  cbv zeta. auto.
Defined.



(** ** register, path by path *)

(** X9. When the creation request fails (a status that is not 2xx, or no
    answer), [register] returns [{success: false, error}] with the server's
    [detail] or the generic registration message, records it as the
    session's error and changes nothing else in the session; exactly one
    request was sent, so no login is attempted; the stored token is
    untouched unless the answer was a 401. *)
Theorem register_rejected (w : World) (userData : value) :
  failed (backend w (sent (trace w))) = true ->
  let reply := backend w (sent (trace w)) in
  let run := AuthProvider.register userData w in
  fst run = Return (failure (register_message reply)) /\
  session (snd run) = with_error (register_message reply) (session w) /\
  localStorage (snd run)
  = (if is_unauthorized reply then delete "token" (localStorage w) else localStorage w) /\
  sent (trace (snd run)) = S (sent (trace w)).
Proof.
  intros H. cbv zeta.
  unfold AuthProvider.register, try_catch, bind, apiService.call, api.post, api.call. cbn.
  rewrite request_run. unfold requested, settled. cbn.
  failed_reply H; cbn.
  - rewrite H. destruct (bool_decide (status r = 401)); cbn; auto.
  - auto.
Qed.

Lemma register_rejected_witness :
  let run := AuthProvider.register alice_form
               (page ∅ [answer 400 (detail "Username already registered")]) in
  fst run = Return (failure (VStr "Username already registered")) /\
  sent (trace (snd run)) = 1%nat.
Proof.
  pose proof (register_rejected
                (page ∅ [answer 400 (detail "Username already registered")])
                alice_form eq_refl) as (Hres & _ & _ & Hn).
  cbv zeta. auto.
Defined.

(** X10. When the account is created (2xx) and the credential exchange of
    the automatic login then fails, [register] returns [{success: false}]
    with the fixed "registered, but login failed" text, while the error
    recorded in the session is the one [login] recorded (the server's
    [detail] or the generic login message); two requests were sent and the
    authenticated flag and user are unchanged. *)
Theorem register_created_but_login_fails (w : World) (userData : value) (r0 : Response) :
  backend w (sent (trace w)) = Replied r0 ->
  api.validateStatus (status r0) = true ->
  nullish userData = false ->
  failed (backend w (S (sent (trace w)))) = true ->
  let reply := backend w (S (sent (trace w))) in
  let run := AuthProvider.register userData w in
  fst run = Return (failure (VStr AuthProvider.registered_but_login_failed)) /\
  session (snd run) = with_error (login_message reply) (session w) /\
  sent (trace (snd run)) = S (S (sent (trace w))).
Proof.
  intros H0 V0 Hu H1. cbv zeta.
  unfold AuthProvider.register, try_catch, bind, apiService.call, api.post, api.call. cbn.
  next_request H0. rewrite V0. unfold member. rewrite Hu. cbn.
  unfold AuthProvider.login, try_catch, bind, apiService.call, api.post, api.call. cbn.
  rewrite request_run. unfold requested, settled. cbn.
  failed_reply H1; cbn.
  - rewrite H1. destruct (bool_decide (status r = 401)); cbn; auto.
  - auto.
Qed.

Lemma register_created_but_login_fails_witness :
  let run := AuthProvider.register alice_form
               (page ∅ [answer 201 alice; answer 503 (detail "Try later")]) in
  fst run = Return (failure (VStr AuthProvider.registered_but_login_failed)) /\
  error (session (snd run)) = VStr "Try later".
Proof.
  pose proof (register_created_but_login_fails
                (page ∅ [answer 201 alice; answer 503 (detail "Try later")])
                alice_form {| status := 201; data := alice |}
                eq_refl eq_refl eq_refl eq_refl) as (Hres & Hs & _).
  cbv zeta. rewrite Hres, Hs. split; reflexivity.
Defined.

(** ** logout and checkAuth *)

(** X11. [logout] sends exactly one request, [POST /api/auth/logout], and
    it carries the token that was in storage when [logout] was called: the
    token is removed after the request, not before. *)
Theorem logout_sends_the_token (w : World) :
  exists c,
    requests (trace (snd (AuthProvider.logout w))) = c :: requests (trace w) /\
    cfg_method c = POST /\ cfg_url c = "/api/auth/logout" /\
    cfg_headers c !! "Authorization" = expected_Authorization (localStorage w).
Proof.
  eexists. open_ops. rewrite request_run. unfold requested, settled. cbn.
  split; [any_reply w; reflexivity|].
  split; [by unfold credentialed; destruct (_ !! _) as [[|]|]|].
  split; [by unfold credentialed; destruct (_ !! _) as [[|]|]|].
  apply credentialed_Authorization.
Qed.

(** [checkAuth] when [getItem('token')] is falsy. *)
Lemma checkAuth_without_token_run (w : World) :
  (localStorage w !! "token" = None \/ localStorage w !! "token" = Some "") ->
  AuthProvider.checkAuth w
  = (Return VUndefined,
     with_session (fun s => {| user := user s; isAuthenticated := isAuthenticated s;
                               loading := false; error := error s |}) w).
Proof.
  intros [H|H]; unfold AuthProvider.checkAuth, bind, getItem; rewrite H; reflexivity.
Qed.

(** X12. With no token in storage, or the empty string, [checkAuth] does
    one thing: it sets [loading] to false. Nothing is sent, and the
    authenticated flag, the user and the error stay as they were, also when
    the session was authenticated. *)
Theorem checkAuth_without_token (w : World) :
  (localStorage w !! "token" = None \/ localStorage w !! "token" = Some "") ->
  AuthProvider.checkAuth w
  = (Return VUndefined,
     with_session (fun s => {| user := user s; isAuthenticated := isAuthenticated s;
                               loading := false; error := error s |}) w).
Proof. exact (checkAuth_without_token_run w). Qed.

Lemma checkAuth_without_token_witness :
  let w := with_storage (delete "token") (signed_in "T" alice []) in
  let run := AuthProvider.checkAuth w in
  isAuthenticated (session (snd run)) = true /\
  user (session (snd run)) = alice /\
  trace (snd run) = [].
Proof.
  cbv zeta.
  rewrite (checkAuth_without_token (with_storage (delete "token") (signed_in "T" alice []))
             ltac:(left; reflexivity)).
  repeat split; reflexivity.
Defined.

(** X13. A [checkAuth] that follows a [logout] sends nothing and leaves the
    store anonymous and settled: no user, not authenticated, not loading, no
    error, no token. *)
Theorem logout_then_checkAuth (w : World) :
  let w1 := snd (AuthProvider.logout w) in
  let w2 := snd (AuthProvider.checkAuth w1) in
  trace w2 = trace w1 /\
  localStorage w2 !! "token" = None /\
  session w2 = {| user := VNull; isAuthenticated := false; loading := false; error := VNull |}.
Proof.
  cbv zeta. destruct (logout_run w) as (_ & Hs & Hls).
  rewrite checkAuth_without_token_run
    by (left; rewrite Hls; apply lookup_delete_eq).
  cbn. rewrite Hs, Hls, lookup_delete_eq. auto.
Qed.

(** ** No operation retries *)

Lemma login_budget (w : World) (username password : value) :
  let n' := sent (trace (snd (AuthProvider.login username password w))) in
  (S (sent (trace w)) <= n' <= S (S (sent (trace w))))%nat.
Proof.
  cbv zeta.
  unfold AuthProvider.login, try_catch, bind, apiService.call, api.post, api.get, api.call,
    member. cbn.
  each_reply; lia.
Qed.

(** X14. Whatever the backend answers, [login] sends one or two requests,
    [register] between one and three, [logout] exactly one and [checkAuth]
    none or one: no operation repeats a request that failed. *)
Theorem no_retries (w : World) :
  let n := sent (trace w) in
  (forall username password,
     let n' := sent (trace (snd (AuthProvider.login username password w))) in
     n + 1 <= n' <= n + 2)%nat /\
  (forall userData,
     let n' := sent (trace (snd (AuthProvider.register userData w))) in
     n + 1 <= n' <= n + 3)%nat /\
  sent (trace (snd (AuthProvider.logout w))) = (n + 1)%nat /\
  (n <= sent (trace (snd (AuthProvider.checkAuth w))) <= n + 1)%nat.
Proof.
  cbv zeta. split; [|split; [|split]].
  - intros u p. pose proof (login_budget w u p). cbv zeta in *. lia.
  - intros u.
    unfold AuthProvider.register, try_catch, bind, apiService.call, api.post, api.call,
      member. cbn.
    rewrite request_run. unfold requested, settled. cbn.
    any_reply w; try lia.
    destruct (nullish u); cbn; [lia|].
    match goal with
    | |- context [AuthProvider.login ?a ?b ?w'] =>
        pose proof (login_budget w' a b) as B;
        destruct (AuthProvider.login a b w') as [[res|e] w''] eqn:L
    end; cbn in *.
    + destruct (nullish res); cbn; [lia|]. destruct (truthy _); cbn; lia.
    + lia.
  - open_ops. each_reply; lia.
  - open_ops. unfold getItem. destruct (negb _); cbn; [lia|]. each_reply; lia.
Qed.

(** * The page frame *)

(** ** split *)

Lemma split_on_nonempty (sep : Ascii.ascii) (s : string) : split_on sep s <> [].
Proof.
  destruct s as [|c s]; cbn; [done|].
  destruct (Ascii.eqb c sep); [done|]. by destruct (split_on sep s).
Qed.

Lemma split_space_free (s : string) : space_free s = true -> split_on space s = [s].
Proof.
  induction s as [|c s IH]; cbn [split_on space_free]; [done|].
  intros [Hc Hs]%andb_true_iff. apply negb_true_iff in Hc. rewrite Hc, (IH Hs). done.
Qed.

Lemma split_append_space (w rest : string) :
  space_free w = true -> split_on space (w ++ " " ++ rest) = w :: split_on space rest.
Proof.
  induction w as [|c w IH]; [done|].
  change (String c w ++ " " ++ rest) with (String c (w ++ " " ++ rest)).
  cbn [split_on space_free].
  intros [Hc Hs]%andb_true_iff. apply negb_true_iff in Hc. rewrite Hc, (IH Hs). done.
Qed.

(** Splitting at spaces undoes joining with spaces, for words without
    spaces. *)
Lemma split_join (words : list string) :
  words <> [] -> Forall (fun w => space_free w = true) words ->
  split_on space (join_spaces words) = words.
Proof.
  induction words as [|w ws IH]; [done|]. intros _ Hall.
  apply Forall_cons in Hall as [Hw Hws].
  destruct ws as [|w' ws]; [by apply split_space_free|].
  change (join_spaces (w :: w' :: ws)) with (w ++ " " ++ join_spaces (w' :: ws)).
  rewrite split_append_space by done. f_equal. by apply IH.
Qed.

Lemma split_with_space (s : string) :
  space_free s = false -> (2 <= length (split_on space s))%nat.
Proof.
  induction s as [|c s IH]; cbn [split_on space_free]; [done|].
  destruct (Ascii.eqb c space); cbn [negb andb].
  - intros _. pose proof (split_on_nonempty space s).
    destruct (split_on space s); [done|cbn; lia].
  - intros H. specialize (IH H). destruct (split_on space s); cbn in *; lia.
Qed.

Lemma space_free_ends (s : string) : space_free s = true -> ends_with_space s = false.
Proof.
  induction s as [|c s IH]; [done|]. cbn [space_free].
  intros [Hc Hs]%andb_true_iff. apply negb_true_iff in Hc.
  destruct s; [exact Hc | by apply IH].
Qed.

Lemma first_piece (s : string) :
  first_char (nth 0 (split_on space s) "") = VUndefined <-> s = "" \/ starts_with_space s = true.
Proof.
  destruct s as [|c s]; cbn [split_on starts_with_space]; [cbn; tauto|].
  destruct (Ascii.eqb c space); [cbn; tauto|].
  destruct (split_on space s); cbn; split; (try done); intros [|]; done.
Qed.

Lemma last_piece (s : string) :
  first_char (List.last (split_on space s) "") = VUndefined
  <-> s = "" \/ ends_with_space s = true.
Proof.
  induction s as [|c s IH]; [cbn; tauto|]. cbn [split_on].
  destruct (Ascii.eqb c space) eqn:Hc.
  - pose proof (split_on_nonempty space s) as Hne.
    replace (List.last ("" :: split_on space s) "") with (List.last (split_on space s) "")
      by (by destruct (split_on space s)).
    rewrite IH. cbn [ends_with_space]. rewrite Hc.
    destruct s; [tauto|]. split; [intros [|]; [done|tauto] | intros [|]; [done|tauto]].
  - destruct (space_free s) eqn:Hs.
    + rewrite (split_space_free s Hs). cbn [List.last first_char].
      pose proof (space_free_ends s Hs) as He.
      cbn [ends_with_space]. rewrite Hc.
      destruct s; split; (try done); intros [|]; congruence.
    + pose proof (split_with_space s Hs) as Hlen.
      destruct (split_on space s) as [|p [|q ps]] eqn:Hsp; cbn in Hlen; try lia.
      change (List.last (String c p :: q :: ps) "") with (List.last (p :: q :: ps) "").
      rewrite IH. cbn [ends_with_space].
      destruct s; [done|]. split; intros [|]; (try done); tauto.
Qed.

Lemma first_char_cases (s : string) :
  first_char s = VUndefined \/ exists c, first_char s = VStr (String c "").
Proof. destruct s; [by left | right; eauto]. Qed.

(** ** getUserInitials and handleLogout *)

Section Initials.
Variable toUpperCase : string -> string.

(** X15. The avatar initials: ["U"] when there is no user, no [full_name]
    or an empty one; for a name that is one word, its first character in
    upper case; for a name of two or more non-empty words separated by
    single spaces, the first character of the first word followed by the
    first character of the last word, in upper case. *)
Theorem initials_of_a_name (user : value) (c1 c2 : Ascii.ascii)
    (w1 w2 : string) (middle : list string) :
  space_free (String c1 w1) = true -> space_free (String c2 w2) = true ->
  Forall (fun w => space_free w = true) middle ->
  (truthy (opt_prop user "full_name") = false ->
   Layout.getUserInitials toUpperCase user = Return "U") /\
  (opt_prop user "full_name" = VStr (String c1 w1) ->
   Layout.getUserInitials toUpperCase user = Return (toUpperCase (String c1 ""))) /\
  (opt_prop user "full_name"
   = VStr (join_spaces (String c1 w1 :: middle ++ [String c2 w2])) ->
   Layout.getUserInitials toUpperCase user
   = Return (toUpperCase (String c1 (String c2 "")))).
Proof.
  intros H1 H2 Hm.
  split; [|split]; intros Hname; unfold Layout.getUserInitials; rewrite Hname.
  - reflexivity.
  - cbn [truthy negb]. rewrite split_space_free by done. reflexivity.
  - rewrite split_join; [|done|].
    2:{ apply Forall_cons. split; [done|]. apply Forall_app. split; [done|].
        by apply Forall_singleton. }
    assert (truthy (VStr (join_spaces (String c1 w1 :: middle ++ [String c2 w2]))) = true)
      as -> by (by destruct middle).
    cbn [negb]. rewrite length_cons, length_app. cbn [length].
    replace (2 <=? S (length middle + 1))%nat with true by (symmetry; apply Nat.leb_le; lia).
    cbn [nth].
    change (String c1 w1 :: middle ++ [String c2 w2])
      with ((String c1 w1 :: middle) ++ [String c2 w2])%list.
    rewrite List.last_last. reflexivity.
Qed.

(** X16. With a string as [full_name], [getUserInitials] throws exactly
    when the name both starts and ends with a space (a name that is one
    space included): the two characters it adds are then both [undefined]. *)
Theorem initials_throw_iff (user : value) (s : string) :
  opt_prop user "full_name" = VStr s ->
  (exists e, Layout.getUserInitials toUpperCase user = Throw e)
  <-> starts_with_space s = true /\ ends_with_space s = true.
Proof.
  intros Hname. unfold Layout.getUserInitials. rewrite Hname.
  destruct s as [|c s]; [cbn; split; [intros [? [=]] | intros [[=] _]]|].
  cbn [truthy negb].
  destruct (space_free (String c s)) eqn:Hsf.
  - rewrite (split_space_free _ Hsf).
    pose proof (space_free_ends _ Hsf) as He'.
    split; [cbn; intros [? [=]] | intros [_ He]; congruence].
  - pose proof (split_with_space _ Hsf) as Hlen. apply Nat.leb_le in Hlen. rewrite Hlen.
    pose proof (first_piece (String c s)) as F. pose proof (last_piece (String c s)) as L.
    unfold Layout.upper_of_sum.
    destruct (first_char_cases (nth 0 (split_on space (String c s)) "")) as [Ha|[a Ha]];
      destruct (first_char_cases (List.last (split_on space (String c s)) "")) as [Hb|[b Hb]];
      rewrite Ha, Hb in *.
    + split; [intros _|eauto]. split; [destruct F as [[|] _]|destruct L as [[|] _]]; done.
    + split; [intros [? [=]]|]. intros [_ He]. destruct L as [_ L].
      by specialize (L (or_intror He)).
    + split; [intros [? [=]]|]. intros [Hs _]. destruct F as [_ F].
      by specialize (F (or_intror Hs)).
    + split; [intros [? [=]]|]. intros [Hs _]. destruct F as [_ F].
      by specialize (F (or_intror Hs)).
Qed.


End Initials.

Lemma initials_of_a_name_witness :
  Layout.getUserInitials ascii_upper alice = Return "A" /\
  Layout.getUserInitials ascii_upper (VObj [("full_name", VStr "nguyen van an")])
  = Return "NA".
Proof.
  split.
  - exact (proj1 (proj2 (initials_of_a_name ascii_upper alice
                           (Ascii.ascii_of_nat 65) (Ascii.ascii_of_nat 65) "lice" "" []
                           eq_refl eq_refl ltac:(repeat constructor))) eq_refl).
  - exact (proj2 (proj2 (initials_of_a_name ascii_upper
                           (VObj [("full_name", VStr "nguyen van an")])
                           (Ascii.ascii_of_nat 110) (Ascii.ascii_of_nat 97)
                           "guyen" "n" ["van"]
                           eq_refl eq_refl ltac:(repeat constructor)))
             eq_refl).
Defined.

Lemma initials_throw_iff_witness :
  exists e, Layout.getUserInitials ascii_upper (VObj [("full_name", VStr " ")]) = Throw e.
Proof.
  apply (initials_throw_iff ascii_upper (VObj [("full_name", VStr " ")]) " " eq_refl).
  split; reflexivity.
Defined.


(** X18. [handleLogout] always gets to [navigate('/login')]: whatever the
    backend does with the invalidation request, [logout] returns, and the
    navigation runs exactly once in a world where no token is stored and the
    session is anonymous. *)
Theorem handleLogout_always_navigates
    (navigate : string -> M unit) (s : Session) (w : World) :
  let w1 := snd (AuthProvider.logout w) in
  Layout.handleLogout navigate (AuthProvider.value s) w
  = (navigate "/login" >> ret VUndefined) w1 /\
  localStorage w1 !! "token" = None /\
  isAuthenticated (session w1) = false /\
  user (session w1) = VNull.
Proof.
  cbv zeta. destruct (logout_run w) as (Hret & Hs & Hls).
  split.
  - unfold Layout.handleLogout. cbn [AuthProvider.ctx_logout AuthProvider.value].
    unfold bind at 1. destruct (AuthProvider.logout w) as [o w1]. cbn in Hret. subst o.
    reflexivity.
  - rewrite Hs, Hls, lookup_delete_eq. auto.
Qed.

(** * The registration page *)

(** ** The email pattern *)







(** ** validateForm *)

Lemma test_nonempty (s : string) : test Register.emailRegex s = true -> s <> "".
Proof. by destruct s. Qed.

Lemma truthy_length (s : string) (n : nat) :
  (S n <= String.length s)%nat -> truthy (VStr s) = true.
Proof. destruct s; cbn; [lia|done]. Qed.

Ltac rejects_with message :=
  intros _; split; [done|]; exists message; split; [|done];
  unfold form_messages; set_solver.

(** What [validateForm] returns and leaves, check by check. *)
Lemma validateForm_accepts_iff_run (st : Register.State) (w : World) :
  let f := Register.formData st in
  let run := Register.validateForm (st, w) in
  (fst run = Return true <->
     test Register.emailRegex (Register.email f) = true /\
     (3 <= String.length (Register.username f))%nat /\
     (6 <= String.length (Register.password f))%nat /\
     Register.confirmPassword f = Register.password f /\
     (2 <= String.length (Register.full_name f))%nat) /\
  (fst run = Return true -> snd run = (st, w)) /\
  (fst run <> Return true ->
     fst run = Return false /\
     exists message, message ∈ form_messages /\ snd run = (with_form_error message st, w)).
Proof.
  cbv zeta. unfold Register.validateForm, cbind, gets. cbn [fst snd].
  destruct (truthy (VStr (Register.email (Register.formData st)))) eqn:T1; cbn [negb orb];
  [destruct (truthy (VStr (Register.username (Register.formData st)))) eqn:T2; cbn [negb orb];
   [destruct (truthy (VStr (Register.password (Register.formData st)))) eqn:T3; cbn [negb orb];
    [destruct (truthy (VStr (Register.full_name (Register.formData st)))) eqn:T4; cbn [negb orb]
    |]|]|].
  5: { split; [split; [done|]|split; [done|rejects_with Register.fill_in_everything]].
       intros (H & _). apply test_nonempty in H. by destruct (Register.email _). }
  4: { split; [split; [done|]|split; [done|rejects_with Register.fill_in_everything]].
       intros (_ & H & _). rewrite (truthy_length _ 2) in T2; [done|lia]. }
  3: { split; [split; [done|]|split; [done|rejects_with Register.fill_in_everything]].
       intros (_ & _ & H & _). rewrite (truthy_length _ 5) in T3; [done|lia]. }
  2: { split; [split; [done|]|split; [done|rejects_with Register.fill_in_everything]].
       intros (_ & _ & _ & _ & H). rewrite (truthy_length _ 1) in T4; [done|lia]. }
  destruct (test Register.emailRegex _) eqn:E; cbn [negb].
  2: { split; [split; [done|intros (? & _); done]
              |split; [done|rejects_with Register.invalid_email]]. }
  destruct (String.length (Register.username _) <? 3)%nat eqn:L1.
  { apply Nat.ltb_lt in L1.
    split; [split; [done|intros (_ & ? & _); lia]
           |split; [done|rejects_with Register.username_too_short]]. }
  destruct (String.length (Register.password _) <? 6)%nat eqn:L2.
  { apply Nat.ltb_lt in L2.
    split; [split; [done|intros (_ & _ & ? & _); lia]
           |split; [done|rejects_with Register.password_too_short]]. }
  destruct (String.eqb (Register.password _) (Register.confirmPassword _)) eqn:P; cbn [negb].
  2: { apply String.eqb_neq in P.
       split; [split; [done|intros (_ & _ & _ & ? & _); congruence]
              |split; [done|rejects_with Register.passwords_differ]]. }
  destruct (String.length (Register.full_name _) <? 2)%nat eqn:L3.
  { apply Nat.ltb_lt in L3.
    split; [split; [done|intros (_ & _ & _ & _ & ?); lia]
           |split; [done|rejects_with Register.full_name_too_short]]. }
  apply Nat.ltb_ge in L1, L2, L3. apply String.eqb_eq in P.
  split; [split; [auto|done] | split; [done|intros H; done]].
Qed.


(** ** handleSubmit *)

(** A rejected form stops the handler after [validateForm]. *)
Lemma handleSubmit_invalid_run (s : Session) (st : Register.State) (w : World) :
  fst (Register.validateForm (st, w)) <> Return true ->
  exists message,
    message ∈ form_messages /\
    Register.handleSubmit (AuthProvider.value s) (st, w)
    = (Return VUndefined, (with_form_error message st, w)).
Proof.
  intros H. destruct (validateForm_accepts_iff_run st w) as (_ & _ & Hrej).
  destruct (Hrej H) as (Hf & message & Hin & Hst).
  exists message. split; [done|].
  unfold Register.handleSubmit, cbind.
  destruct (Register.validateForm (st, w)) as [o sw]. cbn in Hf, Hst. subst o sw.
  reflexivity.
Qed.

(** X21. Submitting a form that [validateForm] rejects sends nothing and
    sets nothing but the error message: the world is untouched and
    [isLoading], [success] and the timers are what they were. *)
Theorem handleSubmit_invalid (s : Session) (st : Register.State) (w : World) :
  fst (Register.validateForm (st, w)) <> Return true ->
  exists message,
    message ∈ form_messages /\
    Register.handleSubmit (AuthProvider.value s) (st, w)
    = (Return VUndefined, (with_form_error message st, w)).
Proof. exact (handleSubmit_invalid_run s st w). Qed.

Lemma handleSubmit_invalid_witness :
  let st := typed_in {| Register.email := "alice@example"; Register.username := "alice";
                        Register.password := "secret"; Register.confirmPassword := "secret";
                        Register.full_name := "Alice" |} in
  exists message,
    message ∈ form_messages /\
    Register.handleSubmit (AuthProvider.value AuthProvider.initial) (st, page ∅ [])
    = (Return VUndefined, (with_form_error message st, page ∅ [])).
Proof.
  cbv zeta. apply handleSubmit_invalid. discriminate.
Defined.

(** An accepted form: the handler in closed form. *)
Lemma handleSubmit_valid_run (s : Session) (st : Register.State) (w : World) :
  fst (Register.validateForm (st, w)) = Return true ->
  let call := AuthProvider.register (Register.userData (Register.formData st)) w in
  exists result,
    fst call = Return result /\
    result_shaped result /\
    Register.handleSubmit (AuthProvider.value s) (st, w)
    = (Return VUndefined, (settled_form result st, snd call)).
Proof.
  intros H. cbv zeta. destruct (validateForm_accepts_iff_run st w) as (_ & Hacc & _).
  specialize (Hacc H).
  destruct (register_returns (Register.userData (Register.formData st)) w) as [result Hres].
  pose proof (register_shaped (Register.userData (Register.formData st)) w result Hres)
    as Hshape.
  exists result. split; [done|]. split; [done|].
  unfold Register.handleSubmit, cbind at 1.
  destruct (Register.validateForm (st, w)) as [o sw]. cbn in H, Hacc. subst o sw.
  cbn [negb].
  unfold cmember, member.
  unfold cbind, ctry_catch_finally, lift, gets,
    Register.setIsLoading, Register.setError, Register.setSuccess,
    Register.setTimeout_navigate, modify, cret.
  cbn [fst snd AuthProvider.ctx_register AuthProvider.value Register.formData].
  destruct (AuthProvider.register (Register.userData (Register.formData st)) w)
    as [o w'] eqn:R.
  cbn in Hres. subst o. cbn [fst snd].
  destruct Hshape as [b Hb].
  assert (nullish result = false) as Hn by (by destruct result).
  cbn. rewrite Hn. unfold ret. cbn [fst snd]. unfold settled_form. rewrite Hb.
  destruct b; reflexivity.
Qed.

(** X22. Submitting a form that [validateForm] accepts never raises and
    always ends with [isLoading] false. [register] is called once, with the
    form's fields as user data; it returns an object with a boolean
    [success], and the page ends either with [success] set, no error and a
    navigation to [/dashboard] scheduled after 1500 ms, or with the error
    [result.error || fallback] and nothing scheduled. The world is the one
    [register] left, and the handler's own catch-all message is never
    shown, because [register] does not throw. *)
Theorem handleSubmit_valid (s : Session) (st : Register.State) (w : World) :
  fst (Register.validateForm (st, w)) = Return true ->
  let call := AuthProvider.register (Register.userData (Register.formData st)) w in
  exists result,
    fst call = Return result /\
    result_shaped result /\
    Register.handleSubmit (AuthProvider.value s) (st, w)
    = (Return VUndefined, (settled_form result st, snd call)).
Proof. exact (handleSubmit_valid_run s st w). Qed.

Lemma handleSubmit_valid_witness :
  let w := page ∅ [answer 400 (detail "Username already registered")] in
  exists result,
    fst (AuthProvider.register (Register.userData alice_fields) w) = Return result /\
    result_shaped result /\
    Register.handleSubmit (AuthProvider.value AuthProvider.initial) (typed_in alice_fields, w)
    = (Return VUndefined,
       (settled_form result (typed_in alice_fields),
        snd (AuthProvider.register (Register.userData alice_fields) w))).
Proof.
  cbv zeta.
  apply (handleSubmit_valid AuthProvider.initial (typed_in alice_fields)
           (page ∅ [answer 400 (detail "Username already registered")])).
  reflexivity.
Defined.





Lemma register_succeeds_run (w : World) (u : value) (T : string) (r0 r1 r2 : Response) :
  nullish u = false ->
  backend w (sent (trace w)) = Replied r0 -> api.validateStatus (status r0) = true ->
  backend w (S (sent (trace w))) = Replied r1 -> api.validateStatus (status r1) = true ->
  prop (data r1) "access_token" = VStr T ->
  backend w (S (S (sent (trace w)))) = Replied r2 -> api.validateStatus (status r2) = true ->
  let run := AuthProvider.register u w in
  fst run = Return (VObj [("success", VBool true); ("user", data r0)]) /\
  session (snd run)
  = {| user := data r2; isAuthenticated := true;
       loading := loading (session w); error := VNull |} /\
  localStorage (snd run) = <["token" := T]> (localStorage w).
Proof.
  intros Hu H0 V0 H1 V1 HT H2 V2. cbv zeta.
  unfold AuthProvider.register, try_catch, bind, apiService.call, api.post, api.call.
  cbn. next_request H0. rewrite V0. unfold member. rewrite Hu. cbn.
  match goal with
  | |- context [AuthProvider.login ?a ?b ?w'] =>
      destruct (login_authenticates w' a b T r1 r2 H1 V1 HT H2 V2) as (Ha & Has & Hal);
      destruct (AuthProvider.login a b w') as [o w''] eqn:L
  end.
  cbn in Ha, Has, Hal. subst o. cbn. rewrite Has, Hal. auto.
Qed.

(** X24. An accepted form against a backend that creates the account,
    issues token [T] and returns a profile: the submit ends with [success]
    set, [isLoading] false, no error, a navigation to [/dashboard] scheduled
    after 1500 ms, the session authenticated with that profile as user, and
    [T] in storage. *)
Theorem handleSubmit_registers (s : Session) (st : Register.State) (w : World)
    (T : string) (r0 r1 r2 : Response) :
  fst (Register.validateForm (st, w)) = Return true ->
  backend w (sent (trace w)) = Replied r0 -> api.validateStatus (status r0) = true ->
  backend w (S (sent (trace w))) = Replied r1 -> api.validateStatus (status r1) = true ->
  prop (data r1) "access_token" = VStr T ->
  backend w (S (S (sent (trace w)))) = Replied r2 -> api.validateStatus (status r2) = true ->
  let run := Register.handleSubmit (AuthProvider.value s) (st, w) in
  let st' := fst (snd run) in
  let w' := snd (snd run) in
  fst run = Return VUndefined /\
  Register.success st' = true /\
  Register.isLoading st' = false /\
  Register.error st' = VStr "" /\
  Register.timers st' = (1500, "/dashboard") :: Register.timers st /\
  isAuthenticated (session w') = true /\
  user (session w') = data r2 /\
  localStorage w' !! "token" = Some T.
Proof.
  intros Hv H0 V0 H1 V1 HT H2 V2. cbv zeta.
  destruct (handleSubmit_valid_run s st w Hv) as (result & Hres & _ & ->).
  destruct (register_succeeds_run w (Register.userData (Register.formData st)) T r0 r1 r2
              eq_refl H0 V0 H1 V1 HT H2 V2) as (Hret & Hs & Hls).
  rewrite Hret in Hres. injection Hres as <-.
  cbn [fst snd]. rewrite Hs, Hls, lookup_insert_eq. cbn. auto 10.
Qed.

Lemma handleSubmit_registers_witness :
  let run := Register.handleSubmit (AuthProvider.value AuthProvider.initial)
               (typed_in alice_fields,
                page ∅ [answer 201 alice; answer 200 (bearer "T"); answer 200 alice]) in
  Register.success (fst (snd run)) = true /\
  Register.timers (fst (snd run)) = [(1500, "/dashboard")] /\
  isAuthenticated (session (snd (snd run))) = true /\
  localStorage (snd (snd run)) !! "token" = Some "T".
Proof.
  pose proof (handleSubmit_registers AuthProvider.initial (typed_in alice_fields)
                (page ∅ [answer 201 alice; answer 200 (bearer "T"); answer 200 alice])
                "T" {| status := 201; data := alice |}
                {| status := 200; data := bearer "T" |} {| status := 200; data := alice |}
                eq_refl eq_refl eq_refl eq_refl eq_refl eq_refl eq_refl eq_refl)
    as (_ & H1 & _ & _ & H2 & H3 & _ & H4).
  cbv zeta. auto.
Defined.

(** * The task board *)

Lemma with_status_filter (status : string) (tasks : list value) :
  Forall (fun t => nullish t = false) tasks ->
  Tasks.with_status status tasks
  = Return (List.filter (Tasks.has_status status) tasks).
Proof.
  induction 1 as [|t rest Ht _ IH]; [done|].
  cbn. rewrite Ht, IH. reflexivity.
Qed.

Lemma statuses_exclusive (t : value) (a b : string) :
  a <> b -> Tasks.has_status a t = true -> Tasks.has_status b t = false.
Proof.
  unfold Tasks.has_status. destruct (prop t "status"); try done.
  intros Hab ->%String.eqb_eq. by apply String.eqb_neq.
Qed.

(** X25. The three columns of the board, for a task list without [null]
    entries: a task is in a column exactly when it is in the list and its
    [status] is that column's; the columns and the tasks with any other
    status (["blocked"], a missing status, ...) add up to the list, so a
    task whose status is none of [todo], [in_progress], [done] is on no
    column. *)
Theorem kanban_columns (tasks : list value) :
  Forall (fun t => nullish t = false) tasks ->
  exists todo doing done,
    Tasks.todoTasks tasks = Return todo /\
    Tasks.inProgressTasks tasks = Return doing /\
    Tasks.doneTasks tasks = Return done /\
    (forall t, In t todo <-> In t tasks /\ prop t "status" = VStr "todo") /\
    (forall t, In t doing <-> In t tasks /\ prop t "status" = VStr "in_progress") /\
    (forall t, In t done <-> In t tasks /\ prop t "status" = VStr "done") /\
    (length todo + length doing + length done
     + length (List.filter (fun t => negb (on_board t)) tasks) = length tasks)%nat.
Proof.
  intros Hall. unfold Tasks.todoTasks, Tasks.inProgressTasks, Tasks.doneTasks.
  rewrite !with_status_filter by done.
  eexists _, _, _. split; [reflexivity|]. split; [reflexivity|]. split; [reflexivity|].
  assert (forall status t,
            In t (List.filter (Tasks.has_status status) tasks)
            <-> In t tasks /\ prop t "status" = VStr status) as Hin.
  { intros status t. rewrite List.filter_In. unfold Tasks.has_status.
    destruct (prop t "status"); try (split; intros [? ?]; done).
    rewrite String.eqb_eq. split; intros [? ?]; split; congruence. }
  split; [apply Hin|]. split; [apply Hin|]. split; [apply Hin|].
  clear. induction tasks as [|t rest IH]; [done|].
  cbn [List.filter]. unfold on_board at 1.
  destruct (Tasks.has_status "todo" t) eqn:H1.
  { rewrite (statuses_exclusive t "todo" "in_progress"), (statuses_exclusive t "todo" "done")
      by done. cbn. lia. }
  destruct (Tasks.has_status "in_progress" t) eqn:H2.
  { rewrite (statuses_exclusive t "in_progress" "done") by done. cbn. lia. }
  destruct (Tasks.has_status "done" t) eqn:H3; cbn; lia.
Qed.

Lemma kanban_columns_witness :
  exists todo doing done,
    Tasks.todoTasks [task 1 "todo"; task 2 "blocked"; task 3 "done"] = Return todo /\
    Tasks.inProgressTasks [task 1 "todo"; task 2 "blocked"; task 3 "done"] = Return doing /\
    Tasks.doneTasks [task 1 "todo"; task 2 "blocked"; task 3 "done"] = Return done /\
    (length todo + length doing + length done + 1 = 3)%nat.
Proof.
  destruct (kanban_columns [task 1 "todo"; task 2 "blocked"; task 3 "done"]
              ltac:(repeat constructor))
    as (todo & doing & done & H1 & H2 & H3 & _ & _ & _ & Hlen).
  exists todo, doing, done. auto.
Defined.

(** * checkAuth in mid-session, and the console *)

(** X26. [checkAuth] from any session (not only at startup) with a
    non-empty token stored sends one request. Answered 2xx, it leaves
    user = the response body, authenticated, not loading, and storage as it
    was; answered otherwise or not at all, it leaves no user, not
    authenticated, not loading and no token, and the location is [/login]
    exactly when the answer was a 401. In both cases the session's error is
    left as it was. *)
Theorem checkAuth_with_token (w : World) (t : string) :
  localStorage w !! "token" = Some t -> t <> "" ->
  let reply := backend w (sent (trace w)) in
  let run := AuthProvider.checkAuth w in
  sent (trace (snd run)) = S (sent (trace w)) /\
  error (session (snd run)) = error (session w) /\
  loading (session (snd run)) = false /\
  match delivered reply with
  | Return r =>
      user (session (snd run)) = data r /\
      isAuthenticated (session (snd run)) = true /\
      localStorage (snd run) = localStorage w /\
      location_href (snd run) = location_href w
  | Throw _ =>
      user (session (snd run)) = VNull /\
      isAuthenticated (session (snd run)) = false /\
      localStorage (snd run) = delete "token" (localStorage w) /\
      location_href (snd run) = (if is_unauthorized reply then "/login" else location_href w)
  end.
Proof.
  intros Htok Hne. cbv zeta. open_ops. unfold getItem. rewrite Htok.
  destruct t as [|c t]; [done|]. cbn.
  rewrite request_run. unfold requested, settled, delivered. cbn.
  destruct (backend w (sent (trace w))) as [r|]; cbn; [|auto 8].
  destruct (api.validateStatus (status r)) eqn:V; cbn; [auto 8|].
  destruct (bool_decide (status r = 401)); cbn; rewrite ?delete_delete_eq; auto 8.
Qed.

Lemma checkAuth_with_token_witness :
  let w := signed_in "T" alice [answer 500 (detail "boom")] in
  let run := AuthProvider.checkAuth w in
  sent (trace (snd run)) = 1%nat /\
  error (session (snd run)) = VNull /\
  loading (session (snd run)) = false.
Proof.
  pose proof (checkAuth_with_token (signed_in "T" alice [answer 500 (detail "boom")]) "T"
                eq_refl ltac:(discriminate)) as (H1 & H2 & H3 & _).
  exact (conj H1 (conj H2 H3)).
Defined.

#[local] Instance same_console_preorder : PreOrder same_console.
Proof.
  split; [by intros w | intros w1 w2 w3 H1 H2; unfold same_console in *; congruence].
Qed.

Lemma call_same_console (e : apiService.Endpoint) : keeps same_console (apiService.call e).
Proof.
  assert (forall cfg, keeps same_console (api.request cfg)) as Hreq.
  { intros cfg w. unfold same_console. rewrite request_run. unfold requested, settled. cbn.
    any_reply w; reflexivity. }
  destruct e; cbn [apiService.call];
    unfold api.get, api.post, api.put, api.patch, api.delete, api.call;
    intros w; apply Hreq.
Qed.

Lemma quiet_same_console {A} (c : M A) :
  (forall w, trace (snd (c w)) = trace w \/
             exists e, trace (snd (c w)) = e :: trace w /\
                       match e with EConsoleError _ _ => False | _ => True end) ->
  keeps same_console c.
Proof.
  intros H w. unfold same_console.
  destruct (H w) as [->|(e & -> & He)]; [done|]. by destruct e.
Qed.

Ltac console_steps :=
  repeat first
    [ apply keeps_bind; [typeclasses eauto| |intros ?]
    | apply keeps_try_catch; [typeclasses eauto| |intros ?]
    | apply keeps_try_finally; [typeclasses eauto| |]
    | apply keeps_ret; typeclasses eauto
    | apply keeps_throw; typeclasses eauto
    | apply keeps_member; typeclasses eauto
    | apply keeps_getItem; typeclasses eauto
    | apply keeps_if
    | apply call_same_console
    | apply quiet_same_console; intros ?; cbn; solve [auto | right; eexists; split; [reflexivity|exact I]] ].

(** X27. The console: [logout] writes to it exactly when its request
    fails, one [console.error('Logout error:', error)] with the rejection
    it swallowed, and nothing when the request succeeds; [login],
    [register], [checkAuth] and the gateway never write to it. *)
Theorem only_logout_logs (w : World) :
  let reply := backend w (sent (trace w)) in
  console_errors (trace (snd (AuthProvider.logout w)))
  = ((if failed reply then [("Logout error:", rejection reply)] else [])
     ++ console_errors (trace w))%list /\
  (forall e, keeps same_console (apiService.call e)) /\
  (forall username password, keeps same_console (AuthProvider.login username password)) /\
  (forall userData, keeps same_console (AuthProvider.register userData)) /\
  keeps same_console AuthProvider.checkAuth.
Proof.
  cbv zeta. split.
  { open_ops. rewrite request_run. unfold requested, settled. cbn.
    destruct (backend w (sent (trace w))) as [r|]; cbn; [|reflexivity].
    destruct (api.validateStatus (status r)); cbn; [reflexivity|].
    destruct (bool_decide (status r = 401)); reflexivity. }
  split; [apply call_same_console|].
  split; [intros; unfold AuthProvider.login; console_steps|].
  split; [intros; unfold AuthProvider.register, AuthProvider.login; console_steps|].
  unfold AuthProvider.checkAuth, try_catch_finally. console_steps.
Qed.
